(** * Walrus basic example: the HTTP blob client and its demonstration run

    A shallow embedding of [Projects/walrus/examples/python/basic_example.py]:
    the [WalrusClient] class (store, retrieve, status probe) and [main].

    The script talks to a remote service through the [requests] library.
    Neither the service nor the library is part of the repository, so the
    embedding keeps them at its boundary:
    - the network is a transition function on an arbitrary state, which
      answers each session call with a response or with an exception;
    - the pure helpers of the Python runtime that the script calls
      ([int], [str], [json.dumps], [json.loads], the UTF-8 codec, the clock)
      are the fields of the class [Runtime].
    Everything else (URLs, parameters, timeouts, exception handling, printed
    lines, return values) is translated from the script line by line.

    Exceptions are the subclasses of [Exception]; an interrupt of the
    interpreter is outside the model, and so is elapsed time: a call carries
    its [timeout] argument, and the transport decides how it ends. Standard
    output is taken to accept every line: [print] does not fail. *)

From Stdlib Require Import ZArith String Ascii List DecimalString Floats.
From stdpp Require Import base gmap strings list.

#[local] Set Warnings "-register-all".
#[local] Open Scope string_scope.
#[local] Open Scope Z_scope.

(** ** Python values *)

(** [bytes] objects. *)
Abbreviation bytes := (list Byte.byte).

(** A decoded JSON document, as [json.loads] and [response.json()] build it,
    and as [json.dumps] consumes it. An object keeps its keys in insertion
    order, which is the order [json.dumps] prints; keys are distinct, as in
    a Python [dict]. *)
Inductive jvalue :=
| JNull
| JBool (b : bool)
| JInt (z : Z)
| JFloat (f : float)
| JStr (s : string)
| JArr (l : list jvalue)
| JObj (kv : list (string * jvalue)).

(** The values stored in the dictionary that [check_blob_status] builds. *)
Inductive pyval :=
| PBool (b : bool)
| PInt (z : Z)
| PStr (s : string).

(** [str(v)] and [bool(v)] for such a value. *)
Definition str_val (v : pyval) : string :=
  match v with
  | PBool true => "True"
  | PBool false => "False"
  | PInt z => NilZero.string_of_int (Z.to_int z)
  | PStr s => s
  end.

Definition truthy_val (v : pyval) : bool :=
  match v with
  | PBool b => b
  | PInt z => negb (z =? 0)
  | PStr s => negb (String.eqb s "")
  end.

(** What a Python function hands back to [sys.exit]: [None] or an integer. *)
Inductive pyret :=
| RetNone
| RetInt (z : Z).

(** [str(n)] for an integer. *)
Definition str_int (z : Z) : string := NilZero.string_of_int (Z.to_int z).

(** [len(b)] for a [bytes] object. *)
Definition len (b : bytes) : Z := Z.of_nat (length b).

(** [a == b] for two [bytes] objects. *)
Fixpoint bytes_eqb (a b : bytes) : bool :=
  match a, b with
  | [], [] => true
  | x :: a', y :: b' => Byte.eqb x y && bytes_eqb a' b'
  | _, _ => false
  end.

(** [bool(v)] for a decoded JSON value: [None], [False], zero, and the empty
    string, list and dict are falsy. *)
Definition truthy (v : jvalue) : bool :=
  match v with
  | JNull => false
  | JBool b => b
  | JInt z => negb (z =? 0)
  | JFloat f => negb (PrimFloat.eqb f 0%float)
  | JStr s => negb (String.eqb s "")
  | JArr l => match l with [] => false | _ :: _ => true end
  | JObj kv => match kv with [] => false | _ :: _ => true end
  end.

(** [type(v).__name__]. *)
Definition type_name (v : jvalue) : string :=
  match v with
  | JNull => "NoneType"
  | JBool _ => "bool"
  | JInt _ => "int"
  | JFloat _ => "float"
  | JStr _ => "str"
  | JArr _ => "list"
  | JObj _ => "dict"
  end.

(** Lookup in a [dict] with string keys. *)
Fixpoint assoc (k : string) (kv : list (string * jvalue)) : option jvalue :=
  match kv with
  | [] => None
  | (k', v) :: rest => if String.eqb k k' then Some v else assoc k rest
  end.

(** ** String helpers of the script *)

(** [s.rstrip('/')]: drop every trailing slash. *)
Fixpoint rstrip_slash (s : string) : string :=
  match s with
  | EmptyString => EmptyString
  | String c rest =>
      match rstrip_slash rest with
      | EmptyString => if Ascii.eqb c "/" then EmptyString else String c EmptyString
      | rest' => String c rest'
      end
  end.

(** [c.lower()] on the ASCII letters. *)
Definition lower_ascii (c : ascii) : ascii :=
  let n := nat_of_ascii c in
  if (Nat.leb 65 n && Nat.leb n 90)%bool then ascii_of_nat (n + 32) else c.

(** [s.lower()]; the strings of the embedding are byte strings, and bytes
    outside the ASCII letters are left alone. *)
Fixpoint lower (s : string) : string :=
  match s with
  | EmptyString => EmptyString
  | String c rest => String (lower_ascii c) (lower rest)
  end.

(** [needle in haystack] for two strings. *)
Fixpoint contains (needle haystack : string) : bool :=
  if String.prefix needle haystack then true
  else match haystack with
       | EmptyString => false
       | String _ rest => contains needle rest
       end.

(** ** The [requests] library, as the script sees it *)

Inductive method := PUT | GET | HEAD.

(** The arguments of one call of [session.put], [session.get] or
    [session.head]. *)
Module Request.
Record t := mk {
  verb : method;
  url : string;
  params : list (string * Z);
  data : option bytes;
  headers : list (string * string);
  timeout : Z
}.
End Request.

(** A [requests.Response]. [headers] is the case-insensitive dictionary of
    the library, keyed by the lower-cased header name; [json] is the outcome
    of [response.json()], either the decoded document or the message of the
    decoding error. *)
Module Response.
Record t := mk {
  status_code : Z;
  reason : string;
  url : string;
  headers : gmap string string;
  content : bytes;
  text : string;
  json : string + jvalue
}.
End Response.

(** The exception classes that can reach the script. The first five are
    [requests.exceptions.RequestException] and subclasses of it. *)
Inductive exn_class :=
| RequestException
| ConnectionError
| Timeout
| HTTPError
| JSONDecodeError
| ValueError
| AttributeError
| UnicodeDecodeError
| KeyError
| OtherException.

(** An exception object: its class, [str(e)], and its [response] attribute
    ([None] unless the library attached one). *)
Record exn := mkExn {
  exn_class_of : exn_class;
  exn_str : string;
  exn_response : option Response.t
}.

(** [isinstance(e, RequestException)]. *)
Definition is_RequestException (e : exn) : bool :=
  match exn_class_of e with
  | RequestException | ConnectionError | Timeout | HTTPError | JSONDecodeError => true
  | ValueError | AttributeError | UnicodeDecodeError | KeyError | OtherException => false
  end.

(** [requests.Session]: the headers sent with every request, keyed by the
    lower-cased header name. *)
Record Session := mkSession {
  session_headers : gmap string string
}.

(** ** The Python runtime *)

(** Pure functions of the interpreter and of its standard library that the
    script calls and does not define. *)
Class Runtime := {
  (** the headers of a fresh [requests.Session()] *)
  default_headers : gmap string string;
  (** [datetime.now().isoformat()] at the time [create_sample_data] runs *)
  now_isoformat : string;
  (** [sys.version] *)
  sys_version : string;
  (** [json.dumps(v, indent=2)] *)
  json_dumps : jvalue -> string;
  (** [json.loads(s)]; [None] stands for [json.JSONDecodeError] *)
  json_loads : string -> option jvalue;
  (** [s.encode('utf-8')] *)
  utf8_encode : string -> bytes;
  (** [b.decode('utf-8')]; the left side is [str(e)] of the
      [UnicodeDecodeError] it raises *)
  utf8_decode : bytes -> string + string;
  (** [b.decode('utf-8', errors='replace')] *)
  utf8_decode_replace : bytes -> string;
  (** [int(s)] for a string; the left side is [str(e)] of the [ValueError]
      it raises *)
  py_int : string -> string + Z;
  (** [str(v)] for a decoded JSON value that is not a string *)
  py_str_other : jvalue -> string
}.

(** [str(v)], which is what an f-string field [{v}] inserts. *)
Definition py_str `{Runtime} (v : jvalue) : string :=
  match v with
  | JStr s => s
  | _ => py_str_other v
  end.

(** ** Effects: the network, standard output, and exceptions *)

Inductive result (A : Type) :=
| Ok (a : A)
| Raise (e : exn).
Arguments Ok {A} a.
Arguments Raise {A} e.

Section Effects.
(** The state of the remote service and of the connection to it. *)
Context {NetState : Type}.

(** Everything the program can change: the network, the session calls
    issued so far (oldest first), the lines printed so far (oldest first),
    and the [time.sleep] calls made so far. *)
Record World := mkWorld {
  net : NetState;
  calls : list Request.t;
  stdout : list string;
  slept : list Z
}.

Definition M (A : Type) : Type := World -> result A * World.

Definition ret {A} (a : A) : M A := fun w => (Ok a, w).

Definition bind {A B} (c : M A) (k : A -> M B) : M B :=
  fun w =>
    match c w with
    | (Ok a, w') => k a w'
    | (Raise e, w') => (Raise e, w')
    end.

(** [raise e]. *)
Definition raise {A} (e : exn) : M A := fun w => (Raise e, w).

(** [try: body / except Exception as e: handler(e)]. *)
Definition try_except {A} (body : M A) (handler : exn -> M A) : M A :=
  fun w =>
    match body w with
    | (Ok a, w') => (Ok a, w')
    | (Raise e, w') => handler e w'
    end.

(** [try: body / except RequestException as e: handler(e)]: any other
    exception passes through. *)
Definition try_except_RequestException {A}
    (body : M A) (handler : exn -> M A) : M A :=
  try_except body (fun e => if is_RequestException e then handler e else raise e).

(** [print(line)]. *)
Definition print (line : string) : M unit :=
  fun w => (Ok tt, {| net := net w; calls := calls w;
                      stdout := stdout w ++ [line]; slept := slept w |}).

(** [time.sleep(seconds)]. *)
Definition sleep (seconds : Z) : M unit :=
  fun w => (Ok tt, {| net := net w; calls := calls w;
                      stdout := stdout w; slept := slept w ++ [seconds] |}).

(** The world after one session call that printed [lines]. *)
Definition after_call (w : World) (rq : Request.t) (n' : NetState)
    (lines : list string) : World :=
  {| net := n'; calls := calls w ++ [rq];
     stdout := stdout w ++ lines; slept := slept w |}.

(** The world after [lines] were printed. *)
Definition after_print (w : World) (lines : list string) : World :=
  {| net := net w; calls := calls w;
     stdout := stdout w ++ lines; slept := slept w |}.

(** A computation that at most prints: it leaves the network, the record
    of calls and the record of sleeps alone, and only adds lines. *)
Definition prints_only {A} (c : M A) : Prop :=
  forall w,
    net (snd (c w)) = net w
    /\ calls (snd (c w)) = calls w
    /\ slept (snd (c w)) = slept w
    /\ exists lines, stdout (snd (c w)) = (stdout w ++ lines)%list.
End Effects.
Arguments World NetState : clear implicits.
Arguments M NetState A : clear implicits.

Declare Scope py_scope.
Delimit Scope py_scope with py.
Notation "x <- c ;; k" := (bind c (fun x => k))
  (at level 100, c at next level, right associativity) : py_scope.
Notation "c ;; k" := (bind c (fun _ => k))
  (at level 100, right associativity) : py_scope.

#[local] Open Scope py_scope.

(** ** The client *)

Section Client.
Context `{Runtime} {NetState : Type}.

(** One blocking call of the session: it receives the session and the
    arguments of the call, and ends with a response or an exception. *)
Variable transport :
  Session -> Request.t -> NetState -> (Response.t + exn) * NetState.

Abbreviation M' := (M NetState).

(** The effect of [session.put], [session.get] and [session.head]: the
    call is recorded, the network moves on, and the exception of the
    transport, if any, is raised. *)
Definition session_request (s : Session) (rq : Request.t) : M' Response.t :=
  fun w =>
    let '(answer, n') := transport s rq (net w) in
    let w' := {| net := n'; calls := calls w ++ [rq];
                 stdout := stdout w; slept := slept w |} in
    match answer with
    | inl response => (Ok response, w')
    | inr e => (Raise e, w')
    end.

(** [session.put(url, params=params, data=data, headers=headers, timeout=t)] *)
Definition session_put (s : Session) (url : string) (params : list (string * Z))
    (data : bytes) (headers : list (string * string)) (t : Z) : M' Response.t :=
  session_request s (Request.mk PUT url params (Some data) headers t).

(** [session.get(url, timeout=t)] *)
Definition session_get (s : Session) (url : string) (t : Z) : M' Response.t :=
  session_request s (Request.mk GET url [] None [] t).

(** [session.head(url, timeout=t)] *)
Definition session_head (s : Session) (url : string) (t : Z) : M' Response.t :=
  session_request s (Request.mk HEAD url [] None [] t).

(** [Response.raise_for_status()] of the library: a status from 400 to 599
    raises [HTTPError], with the response attached; any other status
    returns. *)
Definition http_error_msg (r : Response.t) : string :=
  let code := Response.status_code r in
  if (400 <=? code) && (code <? 500) then
    str_int code ++ " Client Error: " ++ Response.reason r
      ++ " for url: " ++ Response.url r
  else if (500 <=? code) && (code <? 600) then
    str_int code ++ " Server Error: " ++ Response.reason r
      ++ " for url: " ++ Response.url r
  else "".

Definition raise_for_status (r : Response.t) : M' unit :=
  let msg := http_error_msg r in
  if negb (String.eqb msg "") then raise (mkExn HTTPError msg (Some r))
  else ret tt.

(** [response.json()]. *)
Definition response_json (r : Response.t) : M' jvalue :=
  match Response.json r with
  | inr v => ret v
  | inl msg => raise (mkExn JSONDecodeError msg None)
  end.

(** [d.get(key, default)] on a decoded JSON value; only a [dict] has the
    method. *)
Definition dict_get (d : jvalue) (key : string) (default : jvalue) : M' jvalue :=
  match d with
  | JObj kv => ret (match assoc key kv with Some v => v | None => default end)
  | _ => raise (mkExn AttributeError
                  ("'" ++ type_name d ++ "' object has no attribute 'get'") None)
  end.

(** [int(x)], where [x] is a header value or the integer default. *)
Definition int_of_header (x : string + Z) : M' Z :=
  match x with
  | inr z => ret z
  | inl s =>
      match py_int s with
      | inr z => ret z
      | inl msg => raise (mkExn ValueError msg None)
      end
  end.

(** [d[key]] on the dictionary of [check_blob_status]. *)
Definition getitem (d : gmap string pyval) (key : string) : M' pyval :=
  match d !! key with
  | Some v => ret v
  | None => raise (mkExn KeyError ("'" ++ key ++ "'") None)
  end.

Definition PUBLISHER_URL : string := "https://publisher.testnet.walrus.space".
Definition AGGREGATOR_URL : string := "https://aggregator.testnet.walrus.space".
Definition DEFAULT_EPOCHS : Z := 3.

(** [class WalrusClient]. *)
Record WalrusClient := mkWalrusClient {
  publisher_url : string;
  aggregator_url : string;
  session : Session
}.

(** [WalrusClient.__init__]. *)
Definition init (publisher_url aggregator_url : string) : WalrusClient :=
  {| publisher_url := rstrip_slash publisher_url;
     aggregator_url := rstrip_slash aggregator_url;
     session := {| session_headers :=
                     <["user-agent" := "Walrus-Learning-Client/1.0"]> default_headers |} |}.

(** The lines that both [except RequestException] handlers of
    [store_blob] and [retrieve_blob] print after their first line. *)
Definition print_response_of (e : exn) : M' unit :=
  match exn_response e with
  | Some r =>
      print ("   Status: " ++ str_int (Response.status_code r)) ;;
      print ("   Response: " ++ Response.text r)
  | None => ret tt
  end.

(** [WalrusClient.store_blob]. *)
Definition store_blob (self : WalrusClient) (data : bytes) (epochs : Z) : M' jvalue :=
  print ("📝 Storing blob (" ++ str_int (len data) ++ " bytes) for "
           ++ str_int epochs ++ " epochs...") ;;
  try_except_RequestException
    (let url := publisher_url self ++ "/v1/store" in
     let params := [("epochs", epochs)] in
     response <- session_put (session self) url params data
                   [("Content-Type", "application/octet-stream")] 30 ;;
     raise_for_status response ;;
     result <- response_json response ;;
     print "✅ Blob stored successfully!" ;;
     shown <- dict_get result "blobId" (JStr "Unknown") ;;
     print ("📋 Blob ID: " ++ py_str shown) ;;
     ret result)
    (fun e =>
       print ("❌ Error storing blob: " ++ exn_str e) ;;
       print_response_of e ;;
       raise e).

(** [WalrusClient.retrieve_blob]. *)
Definition retrieve_blob (self : WalrusClient) (blob_id : string) : M' bytes :=
  print ("📥 Retrieving blob: " ++ blob_id) ;;
  try_except_RequestException
    (let url := aggregator_url self ++ "/v1/" ++ blob_id in
     response <- session_get (session self) url 30 ;;
     raise_for_status response ;;
     print ("✅ Blob retrieved successfully! ("
              ++ str_int (len (Response.content response)) ++ " bytes)") ;;
     ret (Response.content response))
    (fun e =>
       print ("❌ Error retrieving blob: " ++ exn_str e) ;;
       print_response_of e ;;
       raise e).

(** [e.response is not None and e.response.status_code == 404]. *)
Definition is_404 (e : exn) : bool :=
  match exn_response e with
  | Some r => Response.status_code r =? 404
  | None => false
  end.

(** [WalrusClient.check_blob_status]. The dictionary it returns has the
    keys ['exists'], ['size'] and ['content_type'], or ['exists'] alone. *)
Definition check_blob_status (self : WalrusClient) (blob_id : string)
    : M' (gmap string pyval) :=
  try_except_RequestException
    (let url := aggregator_url self ++ "/v1/" ++ blob_id in
     response <- session_head (session self) url 10 ;;
     raise_for_status response ;;
     size <- int_of_header
               (match Response.headers response !! "content-length" with
                | Some s => inl s
                | None => inr 0
                end) ;;
     ret ({[ "exists" := PBool true;
             "size" := PInt size;
             "content_type" :=
               PStr (match Response.headers response !! "content-type" with
                     | Some s => s
                     | None => "unknown"
                     end) ]} : gmap string pyval))
    (fun e =>
       if is_404 e then ret ({[ "exists" := PBool false ]} : gmap string pyval)
       else raise e).

(** [create_sample_data]. *)
Definition sample_document : jvalue :=
  JObj [
    ("message", JStr "Hello from Walrus Python example!");
    ("timestamp", JStr now_isoformat);
    ("author", JStr "Walrus Learning Repository");
    ("data", JObj [
       ("numbers", JArr [JInt 1; JInt 2; JInt 3; JInt 4; JInt 5]);
       ("nested", JObj [
          ("value", JStr "This is nested data from Python");
          ("active", JBool true);
          ("python_version", JStr sys_version) ]) ]);
    ("metadata", JObj [
       ("example_type", JStr "basic_python_example");
       ("encoding", JStr "utf-8");
       ("language", JStr "python") ]) ].

Definition create_sample_data : bytes :=
  utf8_encode (json_dumps sample_document).

(** The line feed that the script writes as a backslash escape. *)
Definition nl : string := String (ascii_of_nat 10) EmptyString.

(** The inner [try] of [main]: show the retrieved document, or the raw
    text when [json.loads] rejects it. A failure of the strict UTF-8
    decoding is not caught here. *)
Definition show_retrieved (retrieved_data : bytes) : M' unit :=
  match utf8_decode retrieved_data with
  | inl msg => raise (mkExn UnicodeDecodeError msg None)
  | inr decoded =>
      match json_loads decoded with
      | Some parsed_data =>
          print (nl ++ "📄 Retrieved data:") ;;
          print (json_dumps parsed_data)
      | None =>
          print (nl ++ "📄 Retrieved data (raw):") ;;
          print (utf8_decode_replace retrieved_data)
      end
  end.

(** The lines of [main] that print the status dictionary. *)
Definition show_status (status : gmap string pyval) : M' unit :=
  exists_ <- getitem status "exists" ;;
  print ("   • Exists: " ++ str_val exists_) ;;
  if truthy_val exists_ then
    size <- getitem status "size" ;;
    print ("   • Size: " ++ str_val size ++ " bytes") ;;
    content_type <- getitem status "content_type" ;;
    print ("   • Content Type: " ++ str_val content_type)
  else ret tt.

(** The lines of [main] from the integrity check to the summary. *)
Definition verify_and_summarise (sample_data : bytes) (blob_id : jvalue)
    (retrieved_data : bytes) : M' unit :=
  let is_data_intact := bytes_eqb sample_data retrieved_data in
  print (nl ++ "🔍 Data integrity check: "
           ++ if is_data_intact then "✅ PASSED" else "❌ FAILED") ;;
  (if is_data_intact then
     print "🎉 Success! Your blob was stored and retrieved correctly." ;;
     show_retrieved retrieved_data
   else
     print "❌ Warning: Retrieved data differs from original data." ;;
     print ("   Original size: " ++ str_int (len sample_data) ++ " bytes") ;;
     print ("   Retrieved size: " ++ str_int (len retrieved_data) ++ " bytes")) ;;
  print (nl ++ "📊 Summary:") ;;
  print ("   • Blob ID: " ++ py_str blob_id) ;;
  print ("   • Original size: " ++ str_int (len sample_data) ++ " bytes") ;;
  print ("   • Retrieved size: " ++ str_int (len retrieved_data) ++ " bytes") ;;
  print "   • Storage duration: 3 epochs" ;;
  print ("   • Data integrity: "
           ++ if is_data_intact then "✅ Verified" else "❌ Failed").

(** The body of the outer [try] of [main]. [Some v] is a [return v]
    inside the [try]; [None] is the end of the block. The identifier goes
    into the URLs and the printed lines through f-strings, that is,
    through [str]. *)
Definition main_try (client : WalrusClient) : M' (option pyret) :=
  let sample_data := create_sample_data in
  print ("📊 Sample data created (" ++ str_int (len sample_data) ++ " bytes)") ;;
  store_result <- store_blob client sample_data 3 ;;
  blob_id <- dict_get store_result "blobId" JNull ;;
  if negb (truthy blob_id) then
    print "❌ Failed to get blob ID from store result" ;;
    ret (Some RetNone)
  else
    print ("📏 Original size: " ++ str_int (len sample_data) ++ " bytes") ;;
    print "⏰ Storage epochs: 3" ;;
    print ("📋 Blob ID: " ++ py_str blob_id ++ nl) ;;
    print "⏳ Waiting for blob to propagate..." ;;
    sleep 2 ;;
    print "🔍 Checking blob status..." ;;
    status <- check_blob_status client (py_str blob_id) ;;
    show_status status ;;
    retrieved_data <- retrieve_blob client (py_str blob_id) ;;
    verify_and_summarise sample_data blob_id retrieved_data ;;
    ret None.

(** The [except Exception as e] block of [main]. *)
Definition main_except (e : exn) : M' (option pyret) :=
  print ("❌ Error: " ++ exn_str e) ;;
  (if contains "connection" (lower (exn_str e)) then
     print (nl ++ "💡 Tip: Check your network connection and try again")
   else if contains "timeout" (lower (exn_str e)) then
     print (nl ++ "💡 Tip: Request timed out, try again or check network")
   else if contains "404" (exn_str e) then
     print (nl ++ "💡 Tip: Blob not found, it may have expired or the ID is incorrect")
   else ret tt) ;;
  ret (Some (RetInt 1)).

(** [main]. *)
Definition main : M' pyret :=
  print "🌊 Walrus Python Basic Example - Store and Retrieve Blob" ;;
  print ("========================================================" ++ nl) ;;
  let client := init PUBLISHER_URL AGGREGATOR_URL in
  returned <- try_except (main_try client) main_except ;;
  match returned with
  | Some v => ret v
  | None => ret (RetInt 0)
  end.

(** [sys.exit(main())]: the exit status of the process. [None] exits
    with 0, an integer with itself (only 0 and 1 arise), and an exception
    that escapes [main] ends the interpreter with 1. *)
Definition exit_status (r : result pyret) : Z :=
  match r with
  | Ok RetNone => 0
  | Ok (RetInt z) => z
  | Raise _ => 1
  end.

Definition script (w : World NetState) : Z * World NetState :=
  let '(r, w') := main w in (exit_status r, w').
End Client.

(** ** The requests of the three operations, and what they make of the answer *)

Section Outcomes.
Context `{Runtime}.

(** [PUT {publisher_url}/v1/store?epochs={n}] with the raw bytes as body. *)
Definition store_request (self : WalrusClient) (data : bytes) (epochs : Z) : Request.t :=
  Request.mk PUT (publisher_url self ++ "/v1/store") [("epochs", epochs)]
    (Some data) [("Content-Type", "application/octet-stream")] 30.

(** [GET {aggregator_url}/v1/{blob_id}]. *)
Definition retrieve_request (self : WalrusClient) (blob_id : string) : Request.t :=
  Request.mk GET (aggregator_url self ++ "/v1/" ++ blob_id) [] None [] 30.

(** [HEAD {aggregator_url}/v1/{blob_id}]. *)
Definition status_request (self : WalrusClient) (blob_id : string) : Request.t :=
  Request.mk HEAD (aggregator_url self ++ "/v1/" ++ blob_id) [] None [] 10.

(** A status that [raise_for_status] turns into [HTTPError]. *)
Definition is_error_status (code : Z) : bool :=
  (400 <=? code) && (code <? 600).

(** The exception that [raise_for_status] raises for such a response. *)
Definition http_error (r : Response.t) : exn :=
  mkExn HTTPError (http_error_msg r) (Some r).

(** The lines of [print_response_of]. *)
Definition response_lines (e : exn) : list string :=
  match exn_response e with
  | Some r => ["   Status: " ++ str_int (Response.status_code r);
               "   Response: " ++ Response.text r]
  | None => []
  end.

(** What [store_blob] makes of the answer to its call: the result, and
    the lines printed after the first one. *)
Definition store_blob_on (a : Response.t + exn) : result jvalue * list string :=
  let failed (e : exn) :=
    (Raise e, if is_RequestException e
              then ("❌ Error storing blob: " ++ exn_str e) :: response_lines e
              else []) in
  match a with
  | inr e => failed e
  | inl r =>
      if is_error_status (Response.status_code r) then failed (http_error r)
      else match Response.json r with
           | inl msg => failed (mkExn JSONDecodeError msg None)
           | inr (JObj kv) =>
               (Ok (JObj kv),
                ["✅ Blob stored successfully!";
                 "📋 Blob ID: " ++ py_str (match assoc "blobId" kv with
                                            | Some v => v
                                            | None => JStr "Unknown"
                                            end)])
           | inr v =>
               (Raise (mkExn AttributeError
                         ("'" ++ type_name v ++ "' object has no attribute 'get'") None),
                ["✅ Blob stored successfully!"])
           end
  end.

(** What [retrieve_blob] makes of the answer to its call. *)
Definition retrieve_blob_on (a : Response.t + exn) : result bytes * list string :=
  let failed (e : exn) :=
    (Raise e, if is_RequestException e
              then ("❌ Error retrieving blob: " ++ exn_str e) :: response_lines e
              else []) in
  match a with
  | inr e => failed e
  | inl r =>
      if is_error_status (Response.status_code r) then failed (http_error r)
      else (Ok (Response.content r),
            ["✅ Blob retrieved successfully! ("
               ++ str_int (len (Response.content r)) ++ " bytes)"])
  end.

(** What [check_blob_status] makes of the answer to its call. *)
Definition absent : gmap string pyval := {[ "exists" := PBool false ]}.

Definition present (size : Z) (content_type : string) : gmap string pyval :=
  {[ "exists" := PBool true; "size" := PInt size;
     "content_type" := PStr content_type ]}.

Definition check_blob_status_on (a : Response.t + exn) : result (gmap string pyval) :=
  let failed (e : exn) :=
    if is_RequestException e && is_404 e then Ok absent else Raise e in
  match a with
  | inr e => failed e
  | inl r =>
      if is_error_status (Response.status_code r) then failed (http_error r)
      else
        let content_type := match Response.headers r !! "content-type" with
                            | Some s => s
                            | None => "unknown"
                            end in
        match Response.headers r !! "content-length" with
        | None => Ok (present 0 content_type)
        | Some s =>
            match py_int s with
            | inr z => Ok (present z content_type)
            | inl msg => Raise (mkExn ValueError msg None)
            end
        end
  end.

(** The lines that [show_status] prints for a dictionary of
    [check_blob_status]. *)
Definition status_lines (d : gmap string pyval) : list string :=
  match d !! "exists", d !! "size", d !! "content_type" with
  | Some (PBool true), Some size, Some content_type =>
      ["   • Exists: True";
       "   • Size: " ++ str_val size ++ " bytes";
       "   • Content Type: " ++ str_val content_type]
  | _, _, _ => ["   • Exists: False"]
  end.

(** The lines that [verify_and_summarise] prints when the bytes differ. *)
Definition mismatch_lines (sample_data : bytes) (blob_id : jvalue)
    (retrieved_data : bytes) : list string :=
  [nl ++ "🔍 Data integrity check: ❌ FAILED";
   "❌ Warning: Retrieved data differs from original data.";
   "   Original size: " ++ str_int (len sample_data) ++ " bytes";
   "   Retrieved size: " ++ str_int (len retrieved_data) ++ " bytes";
   nl ++ "📊 Summary:";
   "   • Blob ID: " ++ py_str blob_id;
   "   • Original size: " ++ str_int (len sample_data) ++ " bytes";
   "   • Retrieved size: " ++ str_int (len retrieved_data) ++ " bytes";
   "   • Storage duration: 3 epochs";
   "   • Data integrity: ❌ Failed"].
End Outcomes.

(** ** A scripted service and a small runtime

    Concrete instances of the two boundaries, on which the model runs by
    computation: a runtime whose functions are defined on the strings used
    below, and a network that answers the calls from a prepared list. *)

Module Scripted.
(** Decimal digits to an integer. *)
Fixpoint digits_value (s : string) (acc : Z) : option Z :=
  match s with
  | EmptyString => Some acc
  | String c rest =>
      let n := Z.of_nat (nat_of_ascii c) in
      if (48 <=? n) && (n <=? 57) then digits_value rest (10 * acc + (n - 48))
      else None
  end.

Definition int_of_digits (s : string) : string + Z :=
  match s with
  | EmptyString => inl "invalid literal for int() with base 10: ''"
  | _ => match digits_value s 0 with
         | Some z => inr z
         | None => inl ("invalid literal for int() with base 10: '" ++ s ++ "'")
         end
  end.

#[export] Instance runtime : Runtime := {|
  default_headers := {[ "accept" := "*/*" ]};
  now_isoformat := "2025-01-01T00:00:00";
  sys_version := "3.12.0";
  json_dumps := fun _ => "{}";
  json_loads := fun s => if String.eqb s "{}" then Some (JObj []) else None;
  utf8_encode := list_byte_of_string;
  utf8_decode := fun b => inr (string_of_list_byte b);
  utf8_decode_replace := string_of_list_byte;
  py_int := int_of_digits;
  py_str_other := fun v =>
    match v with
    | JNull => "None"
    | JBool true => "True"
    | JBool false => "False"
    | JInt z => str_int z
    | _ => "..."
    end
|}.

(** The network: the answers still to be given, in order. When the list
    is exhausted the connection is refused. *)
Definition refused : exn :=
  mkExn ConnectionError "Connection refused" None.

Definition transport (_ : Session) (_ : Request.t)
    (script : list (Response.t + exn)) : (Response.t + exn) * list (Response.t + exn) :=
  match script with
  | a :: rest => (a, rest)
  | [] => (inr refused, [])
  end.

(** The world at the start of a run. *)
Definition start (script : list (Response.t + exn)) : World (list (Response.t + exn)) :=
  {| net := script; calls := []; stdout := []; slept := [] |}.

(** A response with the given status, headers, body and decoded JSON. *)
Definition response (code : Z) (headers : gmap string string) (body : bytes)
    (json : string + jvalue) : Response.t :=
  {| Response.status_code := code;
     Response.reason := "";
     Response.url := "";
     Response.headers := headers;
     Response.content := body;
     Response.text := string_of_list_byte body;
     Response.json := json |}.

Definition no_json : string + jvalue :=
  inl "Expecting value: line 1 column 1 (char 0)".

(** The answer of a publisher that stored the blob under [blob_id]. *)
Definition stored (blob_id : string) : Response.t :=
  response 200 ∅ [] (inr (JObj [("blobId", JStr blob_id)])).

(** A 200 answer of the aggregator with the given body and headers, and an
    answer that only carries a status. *)
Definition served (body : bytes) (headers : gmap string string) : Response.t :=
  response 200 headers body no_json.

Definition failure (code : Z) : Response.t := response code ∅ [] no_json.

Definition client : WalrusClient := init PUBLISHER_URL AGGREGATOR_URL.

(** A one-byte payload, and one byte that differs from it. *)
Definition payload : bytes := [Byte.x61].
Definition other_bytes : bytes := [Byte.x62].
End Scripted.

(** ** A service that redirects

    One session call is not one HTTP request: the session of the library
    follows redirects for [put] and [get], and does not for [head]. Here
    the state of the network is the list of the HTTP requests sent so far,
    oldest first. Every URL has moved to the same URL with a trailing
    slash: a [put] or [get] is answered with a redirect, which the session
    follows with a second request, answered with 200; a [head] gets the
    redirect itself as its answer. *)

Module Redirecting.
Definition moved (url : string) : string := url ++ "/".

Definition transport (_ : Session) (rq : Request.t)
    (sent : list (method * string))
    : (Response.t + exn) * list (method * string) :=
  match Request.verb rq with
  | HEAD =>
      (inl (Scripted.response 307 {[ "location" := moved (Request.url rq) ]}
              [] Scripted.no_json),
       app sent [(HEAD, Request.url rq)])
  | verb =>
      (inl (Scripted.response 200 ∅ Scripted.payload
              (inr (JObj [("blobId", JStr "abc")]))),
       app sent [(verb, Request.url rq); (verb, moved (Request.url rq))])
  end.

(** The world at the start of a run: nothing sent yet. *)
Definition start : World (list (method * string)) :=
  {| net := []; calls := []; stdout := []; slept := [] |}.
End Redirecting.

(** ** Running the model *)

Section Properties.
Context `{Runtime} {NetState : Type}.
Variable transport :
  Session -> Request.t -> NetState -> (Response.t + exn) * NetState.

Implicit Types (w : World NetState) (self : WalrusClient) (r : Response.t).

Lemma http_error_msg_empty r :
  String.eqb (http_error_msg r) "" = negb (is_error_status (Response.status_code r)).
Proof.
  unfold http_error_msg, is_error_status.
  set (code := Response.status_code r).
  destruct (400 <=? code) eqn:H400, (code <? 500) eqn:H500,
    (500 <=? code) eqn:H5, (code <? 600) eqn:H600; simpl;
    try reflexivity; try lia;
    destruct (str_int code); reflexivity.
Qed.

Lemma raise_for_status_run r w :
  raise_for_status r w
    = if is_error_status (Response.status_code r)
      then (Raise (http_error r), w) else (Ok tt, w).
Proof.
  unfold raise_for_status. rewrite http_error_msg_empty.
  destruct (is_error_status _); reflexivity.
Qed.

Lemma is_404_http_error r :
  is_404 (http_error r) = (Response.status_code r =? 404).
Proof. reflexivity. Qed.

Lemma bind_run {A B} (c : M NetState A) (k : A -> M NetState B) w :
  bind c k w = match c w with
               | (Ok a, w') => k a w'
               | (Raise e, w') => (Raise e, w')
               end.
Proof. reflexivity. Qed.

Lemma bind_ret {A B} (a : A) (k : A -> M NetState B) w :
  bind (ret a) k w = k a w.
Proof. reflexivity. Qed.

Lemma bind_print {B} line (k : unit -> M NetState B) w :
  bind (print line) k w = k tt (after_print w [line]).
Proof. reflexivity. Qed.

Lemma bind_sleep {B} seconds (k : unit -> M NetState B) w :
  bind (sleep seconds) k w
    = k tt {| net := net w; calls := calls w; stdout := stdout w;
              slept := slept w ++ [seconds] |}.
Proof. reflexivity. Qed.

Lemma bind_bind {A B C} (c : M NetState A) (k : A -> M NetState B)
    (k' : B -> M NetState C) w :
  bind (bind c k) k' w = bind c (fun a => bind (k a) k') w.
Proof. unfold bind. by destruct (c w) as [[a | e] w1]. Qed.

Lemma print_run line w :
  print line w = (Ok tt, after_print w [line]).
Proof. reflexivity. Qed.

Lemma after_print_app w (a b : list string) :
  after_print (after_print w a) b = after_print w (a ++ b).
Proof. unfold after_print; simpl. by rewrite app_assoc. Qed.

Lemma stdout_after_print w (lines : list string) :
  stdout (after_print w lines) = (stdout w ++ lines)%list.
Proof. reflexivity. Qed.

Lemma stdout_after_call w rq (n' : NetState) (lines : list string) :
  stdout (after_call w rq n' lines) = (stdout w ++ lines)%list.
Proof. reflexivity. Qed.

Lemma app_nil_world w :
  {| net := net w; calls := calls w; stdout := stdout w ++ []; slept := slept w |} = w.
Proof. destruct w; simpl. by rewrite app_nil_r. Qed.

(** [store_blob] is one call of the transport followed by
    [store_blob_on]. *)
Lemma store_blob_run self data epochs w :
  store_blob transport self data epochs w
    = let '(a, n') :=
        transport (session self) (store_request self data epochs) (net w) in
      (fst (store_blob_on a),
       after_call w (store_request self data epochs) n'
         (("📝 Storing blob (" ++ str_int (len data) ++ " bytes) for "
             ++ str_int epochs ++ " epochs...") :: snd (store_blob_on a))).
Proof.
  unfold store_blob, try_except_RequestException, try_except, bind,
    session_put, session_request, store_request, after_call, print; simpl.
  destruct (transport _ _ _) as [[r | e] n'] eqn:Ht; simpl.
  - rewrite raise_for_status_run.
    destruct (is_error_status _) eqn:Hs; simpl.
    + unfold print_response_of, response_lines; simpl.
      by rewrite <- !app_assoc.
    + unfold response_json. destruct (Response.json r) as [msg | v]; simpl.
      * by rewrite <- !app_assoc.
      * destruct v; simpl; by rewrite <- !app_assoc.
  - destruct (is_RequestException e); simpl; [| done].
    unfold print_response_of, response_lines.
    destruct (exn_response e); simpl; by rewrite <- !app_assoc.
Qed.

(** [retrieve_blob] is one call of the transport followed by
    [retrieve_blob_on]. *)
Lemma retrieve_blob_run self blob_id w :
  retrieve_blob transport self blob_id w
    = let '(a, n') :=
        transport (session self) (retrieve_request self blob_id) (net w) in
      (fst (retrieve_blob_on a),
       after_call w (retrieve_request self blob_id) n'
         (("📥 Retrieving blob: " ++ blob_id) :: snd (retrieve_blob_on a))).
Proof.
  unfold retrieve_blob, try_except_RequestException, try_except, bind,
    session_get, session_request, retrieve_request, after_call, print; simpl.
  destruct (transport _ _ _) as [[r | e] n'] eqn:Ht; simpl.
  - rewrite raise_for_status_run.
    destruct (is_error_status _) eqn:Hs; simpl.
    + unfold print_response_of, response_lines; simpl.
      by rewrite <- !app_assoc.
    + by rewrite <- !app_assoc.
  - destruct (is_RequestException e); simpl; [| done].
    unfold print_response_of, response_lines.
    destruct (exn_response e); simpl; by rewrite <- !app_assoc.
Qed.

(** [check_blob_status] is one call of the transport followed by
    [check_blob_status_on]; it prints nothing. *)
Lemma check_blob_status_run self blob_id w :
  check_blob_status transport self blob_id w
    = let '(a, n') :=
        transport (session self) (status_request self blob_id) (net w) in
      (check_blob_status_on a, after_call w (status_request self blob_id) n' []).
Proof.
  unfold check_blob_status, try_except_RequestException, try_except, bind,
    session_head, session_request, status_request, after_call; simpl.
  destruct (transport _ _ _) as [[r | e] n'] eqn:Ht; simpl;
    rewrite ?app_nil_r.
  - rewrite raise_for_status_run.
    destruct (is_error_status _) eqn:Hs; simpl.
    + unfold is_404; simpl. by destruct (Response.status_code r =? 404).
    + unfold int_of_header.
      destruct (Response.headers r !! "content-length") as [s |]; simpl.
      * by destruct (py_int s).
      * done.
  - by destruct (is_RequestException e), (is_404 e).
Qed.

(** ** The three operations *)

(** C7, as the script has it. Each of store, retrieve and the status probe
    makes exactly one call of the session, whatever its outcome: a [put]
    with timeout 30, a [get] with timeout 30, a [head] with timeout 10. The
    network is stepped by this one call and by nothing else, and none of
    the three sleeps: a failure is followed by neither a second attempt nor
    a pause. How many HTTP requests the one call sends is the library's
    matter. *)
Theorem one_session_call_per_operation self data epochs blob_id w :
  (let w' := snd (store_blob transport self data epochs w) in
   exists rq, calls w' = (calls w ++ [rq])%list
     /\ Request.verb rq = PUT /\ Request.timeout rq = 30
     /\ net w' = snd (transport (session self) rq (net w))
     /\ slept w' = slept w)
  /\ (let w' := snd (retrieve_blob transport self blob_id w) in
      exists rq, calls w' = (calls w ++ [rq])%list
        /\ Request.verb rq = GET /\ Request.timeout rq = 30
        /\ net w' = snd (transport (session self) rq (net w))
        /\ slept w' = slept w)
  /\ (let w' := snd (check_blob_status transport self blob_id w) in
      exists rq, calls w' = (calls w ++ [rq])%list
        /\ Request.verb rq = HEAD /\ Request.timeout rq = 10
        /\ net w' = snd (transport (session self) rq (net w))
        /\ slept w' = slept w).
Proof.
  rewrite store_blob_run, retrieve_blob_run, check_blob_status_run.
  repeat split.
  - exists (store_request self data epochs).
    destruct (transport (session self) (store_request self data epochs) (net w))
      as [a n']; simpl; auto.
  - exists (retrieve_request self blob_id).
    destruct (transport (session self) (retrieve_request self blob_id) (net w))
      as [a n']; simpl; auto.
  - exists (status_request self blob_id).
    destruct (transport (session self) (status_request self blob_id) (net w))
      as [a n']; simpl; auto.
Qed.

(** C8. Store issues [PUT {publisher_url}/v1/store] with the parameter
    [epochs] and the raw bytes as body, and returns the JSON object of the
    answer; retrieve issues [GET {aggregator_url}/v1/{blob_id}] and returns
    the body of the answer; the status probe issues [HEAD] on the same URL
    without a body, and its result is built from the [content-length] and
    [content-type] headers of the answer alone. *)
Theorem endpoints_and_results self data epochs blob_id w :
  (calls (snd (store_blob transport self data epochs w))
     = (calls w ++ [Request.mk PUT (publisher_url self ++ "/v1/store")
                      [("epochs", epochs)] (Some data)
                      [("Content-Type", "application/octet-stream")] 30])%list
   /\ forall r n' kv,
        transport (session self) (store_request self data epochs) (net w) = (inl r, n') ->
        is_error_status (Response.status_code r) = false ->
        Response.json r = inr (JObj kv) ->
        fst (store_blob transport self data epochs w) = Ok (JObj kv))
  /\ (calls (snd (retrieve_blob transport self blob_id w))
        = (calls w ++ [Request.mk GET (aggregator_url self ++ "/v1/" ++ blob_id)
                         [] None [] 30])%list
      /\ forall r n',
           transport (session self) (retrieve_request self blob_id) (net w) = (inl r, n') ->
           is_error_status (Response.status_code r) = false ->
           fst (retrieve_blob transport self blob_id w) = Ok (Response.content r))
  /\ (calls (snd (check_blob_status transport self blob_id w))
        = (calls w ++ [Request.mk HEAD (aggregator_url self ++ "/v1/" ++ blob_id)
                         [] None [] 10])%list
      /\ forall r n' size,
           transport (session self) (status_request self blob_id) (net w) = (inl r, n') ->
           is_error_status (Response.status_code r) = false ->
           match Response.headers r !! "content-length" with
           | Some s => py_int s
           | None => inr 0
           end = inr size ->
           fst (check_blob_status transport self blob_id w)
             = Ok {[ "exists" := PBool true;
                     "size" := PInt size;
                     "content_type" :=
                       PStr (default "unknown" (Response.headers r !! "content-type")) ]}).
Proof.
  rewrite store_blob_run, retrieve_blob_run, check_blob_status_run.
  split; [| split]; split.
  - by destruct (transport (session self) (store_request self data epochs) (net w)).
  - intros r n' kv -> Hs Hj; simpl. by rewrite Hs, Hj.
  - by destruct (transport (session self) (retrieve_request self blob_id) (net w)).
  - intros r n' -> Hs; simpl. by rewrite Hs.
  - by destruct (transport (session self) (status_request self blob_id) (net w)).
  - intros r n' size -> Hs Hsize; simpl. rewrite Hs.
    destruct (Response.headers r !! "content-length") as [s |];
      [rewrite Hsize | injection Hsize as <-];
      by destruct (Response.headers r !! "content-type").
Qed.

(** C5. On a not-found answer (status 404) the status probe returns the
    dictionary with ['exists'] false and raises nothing; every other
    failure reaches the caller: the HTTP error of any other 4xx or 5xx
    status, and whatever the transport raised (connection error, timeout)
    unless it carries a 404 response. *)
Theorem check_status_not_found_or_propagate self blob_id w a n' :
  transport (session self) (status_request self blob_id) (net w) = (a, n') ->
  (forall r, a = inl r -> Response.status_code r = 404 ->
     fst (check_blob_status transport self blob_id w)
       = Ok {[ "exists" := PBool false ]})
  /\ (forall r, a = inl r -> is_error_status (Response.status_code r) = true ->
        Response.status_code r <> 404 ->
        fst (check_blob_status transport self blob_id w)
          = Raise (mkExn HTTPError (http_error_msg r) (Some r)))
  /\ (forall e, a = inr e -> is_404 e = false ->
        fst (check_blob_status transport self blob_id w) = Raise e)
  /\ (forall e, a = inr e -> is_RequestException e = true -> is_404 e = true ->
        fst (check_blob_status transport self blob_id w)
          = Ok {[ "exists" := PBool false ]}).
Proof.
  intros Ht. rewrite check_blob_status_run; simpl. rewrite Ht; simpl.
  repeat split.
  - intros r -> Hcode. unfold check_blob_status_on.
    rewrite is_404_http_error. by rewrite Hcode.
  - intros r -> Hs Hcode. unfold check_blob_status_on.
    rewrite Hs, is_404_http_error.
    by destruct (Z.eqb_spec (Response.status_code r) 404).
  - intros e -> He. unfold check_blob_status_on.
    rewrite He. by rewrite andb_false_r.
  - intros e -> Hr He. unfold check_blob_status_on. by rewrite Hr, He.
Qed.

(** C10. When the status probe is answered with a 2xx status, whatever the
    probe returns has ['exists'] true, an integer under ['size'] and a
    string under ['content_type']: neither is missing. The size is 0 when
    the answer has no [content-length] header, and the content type is
    ['unknown'] when it has no [content-type] header. The probe does return
    when [content-length] is missing or holds an integer. *)
Theorem check_status_concrete_fields self blob_id w r n' :
  transport (session self) (status_request self blob_id) (net w) = (inl r, n') ->
  200 <= Response.status_code r < 300 ->
  (forall d, fst (check_blob_status transport self blob_id w) = Ok d ->
     d !! "exists" = Some (PBool true)
     /\ (exists z, d !! "size" = Some (PInt z))
     /\ (exists s, d !! "content_type" = Some (PStr s)))
  /\ (Response.headers r !! "content-length" = None ->
        exists d, fst (check_blob_status transport self blob_id w) = Ok d
          /\ d !! "size" = Some (PInt 0))
  /\ (forall s z, Response.headers r !! "content-length" = Some s ->
        py_int s = inr z ->
        exists d, fst (check_blob_status transport self blob_id w) = Ok d
          /\ d !! "size" = Some (PInt z))
  /\ (Response.headers r !! "content-type" = None ->
        forall d, fst (check_blob_status transport self blob_id w) = Ok d ->
          d !! "content_type" = Some (PStr "unknown")).
Proof.
  intros Ht Hcode. rewrite check_blob_status_run; simpl. rewrite Ht; simpl.
  assert (is_error_status (Response.status_code r) = false) as ->
    by (unfold is_error_status; lia).
  split; [| split; [| split]].
  - destruct (Response.headers r !! "content-length") as [s |];
      [destruct (py_int s) |]; intros d [= <-];
      (split; [done | split; by eexists]).
  - intros ->. by eexists.
  - intros s z -> ->. by eexists.
  - intros ->. destruct (Response.headers r !! "content-length") as [s |];
      [destruct (py_int s) |]; intros d [= <-]; done.
Qed.
(** C2, as the script has it. The script declares no error class: store
    and retrieve raise what the library raised, unchanged, after one session
    call with timeout 30. When the call itself fails (connection error,
    timeout: the transport error of the specification) the exception of the
    transport is raised. When the call is answered with a status from 400
    to 599, [raise_for_status] raises [HTTPError] with the response
    attached: this is the server error of store, the not-found error of
    retrieve on a 404, and on retrieve with any other such status it is
    the same HTTP error, not a transport error. An answer with any other
    status, 2xx or not, raises no HTTP error: retrieve returns its body,
    and store goes on to decode it. *)
Theorem store_and_retrieve_raise self data epochs blob_id w :
  (calls (snd (store_blob transport self data epochs w))
     = (calls w ++ [store_request self data epochs])%list
   /\ Request.timeout (store_request self data epochs) = 30
   /\ (forall e n',
         transport (session self) (store_request self data epochs) (net w)
           = (inr e, n') ->
         fst (store_blob transport self data epochs w) = Raise e)
   /\ (forall r n',
         transport (session self) (store_request self data epochs) (net w)
           = (inl r, n') ->
         400 <= Response.status_code r < 600 ->
         fst (store_blob transport self data epochs w)
           = Raise (mkExn HTTPError (http_error_msg r) (Some r)))
   /\ (forall r n' e,
         transport (session self) (store_request self data epochs) (net w)
           = (inl r, n') ->
         ~ 400 <= Response.status_code r < 600 ->
         fst (store_blob transport self data epochs w) = Raise e ->
         (exn_class_of e = JSONDecodeError \/ exn_class_of e = AttributeError)
         /\ exn_response e = None))
  /\ (calls (snd (retrieve_blob transport self blob_id w))
        = (calls w ++ [retrieve_request self blob_id])%list
      /\ Request.timeout (retrieve_request self blob_id) = 30
      /\ (forall e n',
            transport (session self) (retrieve_request self blob_id) (net w)
              = (inr e, n') ->
            fst (retrieve_blob transport self blob_id w) = Raise e)
      /\ (forall r n',
            transport (session self) (retrieve_request self blob_id) (net w)
              = (inl r, n') ->
            400 <= Response.status_code r < 600 ->
            fst (retrieve_blob transport self blob_id w)
              = Raise (mkExn HTTPError (http_error_msg r) (Some r)))
      /\ (forall r n',
            transport (session self) (retrieve_request self blob_id) (net w)
              = (inl r, n') ->
            ~ 400 <= Response.status_code r < 600 ->
            fst (retrieve_blob transport self blob_id w)
              = Ok (Response.content r))).
Proof.
  assert (forall code, 400 <= code < 600 -> is_error_status code = true) as Herr
    by (intros code Hcode; unfold is_error_status; lia).
  assert (forall code, ~ 400 <= code < 600 -> is_error_status code = false) as Hok
    by (intros code Hcode; unfold is_error_status; lia).
  rewrite store_blob_run, retrieve_blob_run.
  split; (split; [| split; [reflexivity | split; [| split]]]).
  - by destruct (transport (session self) (store_request self data epochs) (net w)).
  - by intros e n' ->.
  - intros r n' -> Hcode. unfold store_blob_on; simpl. by rewrite (Herr _ Hcode).
  - intros r n' e -> Hcode. unfold store_blob_on; simpl. rewrite (Hok _ Hcode).
    destruct (Response.json r) as [msg | v]; [| destruct v];
      intros [= <-]; simpl; auto.
  - by destruct (transport (session self) (retrieve_request self blob_id) (net w)).
  - by intros e n' ->.
  - intros r n' -> Hcode. unfold retrieve_blob_on; simpl. by rewrite (Herr _ Hcode).
  - intros r n' -> Hcode. unfold retrieve_blob_on; simpl. by rewrite (Hok _ Hcode).
Qed.

(** C6, as the script has it. After a store that returned the identifier
    [b], a status probe that is answered with a non-error status returns
    ['exists'] true; its ['size'] is the integer held by the [content-length]
    header of the answer, hence [len(P)] when the service reports the stored
    length there, and 0 when the header is missing. *)
Theorem check_status_after_store self P epochs w kv w1 b r n' :
  store_blob transport self P epochs w = (Ok (JObj kv), w1) ->
  assoc "blobId" kv = Some (JStr b) ->
  transport (session self) (status_request self b) (net w1) = (inl r, n') ->
  is_error_status (Response.status_code r) = false ->
  calls (snd (check_blob_status transport self b w1))
    = (calls w ++ [store_request self P epochs; status_request self b])%list
  /\ (forall s, Response.headers r !! "content-length" = Some s ->
        py_int s = inr (len P) ->
        exists d, fst (check_blob_status transport self b w1) = Ok d
          /\ d !! "exists" = Some (PBool true)
          /\ d !! "size" = Some (PInt (len P)))
  /\ (Response.headers r !! "content-length" = None ->
      exists d, fst (check_blob_status transport self b w1) = Ok d
        /\ d !! "exists" = Some (PBool true)
        /\ d !! "size" = Some (PInt 0)).
Proof.
  intros Hstore _ Ht Hs.
  rewrite store_blob_run in Hstore.
  destruct (transport (session self) (store_request self P epochs) (net w))
    as [a n1].
  injection Hstore as _ <-.
  rewrite check_blob_status_run, Ht; simpl.
  unfold check_blob_status_on. rewrite Hs.
  split; [by rewrite <- app_assoc | split].
  - intros s -> ->. by eexists.
  - intros ->. by eexists.
Qed.

(** C1, as the script has it. Store sends the payload [P] as the body of
    its request, unmodified. After a store that returned the identifier
    [b], a retrieve that is answered with a non-error status returns the
    body of that answer, unmodified and unchecked: it returns [P] exactly
    when the service answers with the bytes that were stored. *)
Theorem retrieve_after_store self P epochs w kv w1 b r n' :
  store_blob transport self P epochs w = (Ok (JObj kv), w1) ->
  assoc "blobId" kv = Some (JStr b) ->
  transport (session self) (retrieve_request self b) (net w1) = (inl r, n') ->
  is_error_status (Response.status_code r) = false ->
  (exists rq, calls w1 = (calls w ++ [rq])%list /\ Request.data rq = Some P)
  /\ fst (retrieve_blob transport self b w1) = Ok (Response.content r)
  /\ (fst (retrieve_blob transport self b w1) = Ok P <-> Response.content r = P).
Proof.
  intros Hstore _ Ht Hs.
  rewrite store_blob_run in Hstore.
  destruct (transport (session self) (store_request self P epochs) (net w))
    as [a n1].
  injection Hstore as _ <-.
  rewrite retrieve_blob_run, Ht; simpl.
  unfold retrieve_blob_on. rewrite Hs; simpl.
  split; [by eexists | split; [done |]].
  split; [by intros [= ->] | by intros ->].
Qed.
(** ** The run of [main] *)

Lemma bytes_eqb_eq (a b : bytes) : bytes_eqb a b = true <-> a = b.
Proof.
  revert b. induction a as [| x a IH]; intros [| y b]; simpl; try easy.
  rewrite andb_true_iff, IH. split.
  - intros [Hxy ->]. by rewrite (Byte.byte_dec_bl _ _ Hxy).
  - intros [= -> ->]. split; [by apply Byte.byte_dec_lb | done].
Qed.

Lemma check_blob_status_on_cases a d :
  check_blob_status_on a = Ok d ->
  d = absent \/ exists z content_type, d = present z content_type.
Proof.
  unfold check_blob_status_on. destruct a as [r | e].
  - destruct (is_error_status (Response.status_code r)).
    + destruct (is_RequestException (http_error r) && is_404 (http_error r));
        intros [= <-]; by left.
    + destruct (Response.headers r !! "content-length") as [s |];
        [destruct (py_int s) |]; intros [= <-]; right; by do 2 eexists.
  - destruct (is_RequestException e && is_404 e); intros [= <-]; by left.
Qed.

Lemma present_lookup_exists z content_type :
  present z content_type !! "exists" = Some (PBool true).
Proof. reflexivity. Qed.

Lemma present_lookup_size z content_type :
  present z content_type !! "size" = Some (PInt z).
Proof. reflexivity. Qed.

Lemma present_lookup_content_type z content_type :
  present z content_type !! "content_type" = Some (PStr content_type).
Proof. reflexivity. Qed.

Lemma show_status_run a d w :
  check_blob_status_on a = Ok d ->
  show_status d w = (Ok tt, after_print w (status_lines d)).
Proof.
  intros [-> | (z & content_type & ->)]%check_blob_status_on_cases.
  - reflexivity.
  - unfold show_status, bind, getitem, print, after_print, status_lines.
    rewrite !present_lookup_exists, !present_lookup_size,
      !present_lookup_content_type; simpl.
    by rewrite <- !app_assoc.
Qed.

Lemma verify_and_summarise_mismatch sample_data blob_id retrieved_data w :
  sample_data <> retrieved_data ->
  verify_and_summarise sample_data blob_id retrieved_data w
    = (Ok tt, after_print w (mismatch_lines sample_data blob_id retrieved_data)).
Proof.
  intros Hne. unfold verify_and_summarise.
  destruct (bytes_eqb sample_data retrieved_data) eqn:Heq.
  - by apply bytes_eqb_eq in Heq.
  - cbv beta iota zeta.
    repeat (rewrite bind_bind || rewrite bind_print).
    rewrite print_run, !after_print_app. reflexivity.
Qed.

(** The [try] block of [main] ends in one of two ways when it does not
    raise: at its end, or at the [return] that follows a missing
    identifier. *)
Lemma main_try_returns client w v w' :
  main_try transport client w = (Ok v, w') -> v = None \/ v = Some RetNone.
Proof.
  unfold main_try, bind at 1 2 3. simpl.
  rewrite store_blob_run.
  destruct (transport _ _ _) as [a1 n1].
  destruct (store_blob_on a1) as [[store_result | e] lines]; simpl; [| done].
  unfold dict_get. destruct store_result; simpl; try done.
  destruct (negb _); simpl.
  - intros [= <- _]. by right.
  - unfold bind. simpl. rewrite check_blob_status_run; simpl.
    destruct (transport _ _ _) as [a2 n2].
    destruct (check_blob_status_on a2) as [d | e]; [| done].
    destruct (show_status d _) as [[[] | e] w2]; [| done].
    rewrite retrieve_blob_run.
    destruct (transport _ _ _) as [a3 n3].
    destruct (retrieve_blob_on a3) as [[retrieved_data | e] lines3]; simpl; [| done].
    destruct (verify_and_summarise _ _ _ _) as [[[] | e] w3]; [| done].
    intros [= <- _]. by left.
Qed.
(** The world in which the [try] block of [main] starts: the two banner
    lines are out. *)
Lemma main_run w :
  main transport w
    = let w0 := after_print w
                  ["🌊 Walrus Python Basic Example - Store and Retrieve Blob";
                   "========================================================" ++ nl] in
      match main_try transport (init PUBLISHER_URL AGGREGATOR_URL) w0 with
      | (Ok (Some v), w') => (Ok v, w')
      | (Ok None, w') => (Ok (RetInt 0), w')
      | (Raise e, w') =>
          match main_except e w' with
          | (Ok (Some v), w'') => (Ok v, w'')
          | (Ok None, w'') => (Ok (RetInt 0), w'')
          | (Raise e', w'') => (Raise e', w'')
          end
      end.
Proof.
  unfold main, bind, try_except, print, after_print; simpl.
  rewrite <- app_assoc; simpl.
  destruct (main_try _ _ _) as [[[v |] | e] w']; try reflexivity.
  by destruct (main_except e w') as [[[v |] | e'] w''].
Qed.

Lemma main_except_run e w :
  exists tip, main_except e w
    = (Ok (Some (RetInt 1)), after_print w (("❌ Error: " ++ exn_str e) :: tip)).
Proof.
  unfold main_except, bind, print, after_print; simpl.
  destruct (contains "connection" _); [| destruct (contains "timeout" _);
    [| destruct (contains "404" _)]]; simpl;
    eexists; rewrite <- ?app_assoc; simpl; reflexivity.
Qed.

(** C3. The exit status of a run is 0 when the [try] block of [main] ends
    without an exception, and 1 when any exception leaves it; in that case
    the line [❌ Error: ...] with the text of the exception is on standard
    output. *)
Theorem exit_status_of_run w :
  match main_try transport (init PUBLISHER_URL AGGREGATOR_URL)
          (after_print w
             ["🌊 Walrus Python Basic Example - Store and Retrieve Blob";
              "========================================================" ++ nl]) with
  | (Ok _, _) => fst (script transport w) = 0
  | (Raise e, _) =>
      fst (script transport w) = 1
      /\ ("❌ Error: " ++ exn_str e) ∈ stdout (snd (script transport w))
  end.
Proof.
  unfold script. rewrite main_run; simpl.
  destruct (main_try _ _ _) as [[v | e] w'] eqn:Htry.
  - apply main_try_returns in Htry as [-> | ->]; reflexivity.
  - destruct (main_except_run e w') as [tip ->]; simpl.
    split; [reflexivity |]. set_solver.
Qed.

(** The [try] block on a store answer without a usable identifier. *)
Lemma main_try_missing_blob_id client w r n' kv :
  transport (session client) (store_request client create_sample_data 3) (net w)
    = (inl r, n') ->
  is_error_status (Response.status_code r) = false ->
  Response.json r = inr (JObj kv) ->
  truthy (match assoc "blobId" kv with Some v => v | None => JNull end) = false ->
  exists lines,
    main_try transport client w
      = (Ok (Some RetNone),
         after_call w (store_request client create_sample_data 3) n'
           (lines ++ ["❌ Failed to get blob ID from store result"])).
Proof.
  intros Ht Hs Hjson Hfalsy.
  unfold main_try. rewrite bind_print, bind_run, store_blob_run.
  simpl. rewrite Ht.
  unfold store_blob_on. rewrite Hs, Hjson; simpl.
  rewrite bind_ret, Hfalsy; simpl. rewrite bind_print.
  eexists [_; _; _; _]. unfold after_call, after_print, ret; simpl.
  by rewrite <- !app_assoc.
Qed.

(** C9. When the store call is answered with a 2xx status and a JSON object
    in which ['blobId'] is missing or falsy, [main] prints the failure line
    last, issues no further call and does not sleep; it returns [None], so
    the exit status is 0. *)
Theorem missing_blob_id_exits_zero w r n' kv :
  let client := init PUBLISHER_URL AGGREGATOR_URL in
  transport (session client) (store_request client create_sample_data 3) (net w)
    = (inl r, n') ->
  200 <= Response.status_code r < 300 ->
  Response.json r = inr (JObj kv) ->
  (assoc "blobId" kv = None
   \/ exists v, assoc "blobId" kv = Some v /\ truthy v = false) ->
  exists w',
    main transport w = (Ok RetNone, w')
    /\ fst (script transport w) = 0
    /\ calls w' = (calls w ++ [store_request client create_sample_data 3])%list
    /\ slept w' = slept w
    /\ last (stdout w') = Some "❌ Failed to get blob ID from store result".
Proof.
  intros client Ht Hcode Hjson Hid.
  assert (is_error_status (Response.status_code r) = false) as Hs
    by (unfold is_error_status; lia).
  assert (truthy (match assoc "blobId" kv with Some v => v | None => JNull end) = false)
    as Hfalsy by (destruct Hid as [-> | (v & -> & Hv)]; done).
  destruct (main_try_missing_blob_id client
              (after_print w
                 ["🌊 Walrus Python Basic Example - Store and Retrieve Blob";
                  "========================================================" ++ nl])
              r n' kv Ht Hs Hjson Hfalsy) as [lines Htry].
  assert (main transport w
          = (Ok RetNone,
             after_call
               (after_print w
                  ["🌊 Walrus Python Basic Example - Store and Retrieve Blob";
                   "========================================================" ++ nl])
               (store_request client create_sample_data 3) n'
               (lines ++ ["❌ Failed to get blob ID from store result"]))) as Hmain.
  { rewrite main_run. cbv zeta. fold client. by rewrite Htry. }
  eexists. split; [exact Hmain |].
  unfold script. rewrite Hmain. simpl.
  repeat split. by rewrite !app_assoc, last_snoc.
Qed.

(** None of the lines that report a status is an error line. *)
Lemma status_lines_no_error a d :
  check_blob_status_on a = Ok d ->
  Forall (fun line => String.prefix "❌ Error" line = false) (status_lines d).
Proof.
  intros [-> | (z & content_type & ->)]%check_blob_status_on_cases.
  - repeat constructor.
  - unfold status_lines.
    rewrite present_lookup_exists, present_lookup_size, present_lookup_content_type.
    repeat constructor.
Qed.

(** The [try] block when all three calls return and the bytes differ. *)
Lemma main_try_mismatch client w r1 n1 kv v a2 n2 d r3 n3 :
  transport (session client) (store_request client create_sample_data 3) (net w)
    = (inl r1, n1) ->
  is_error_status (Response.status_code r1) = false ->
  Response.json r1 = inr (JObj kv) ->
  assoc "blobId" kv = Some v ->
  truthy v = true ->
  transport (session client) (status_request client (py_str v)) n1 = (a2, n2) ->
  check_blob_status_on a2 = Ok d ->
  transport (session client) (retrieve_request client (py_str v)) n2 = (inl r3, n3) ->
  is_error_status (Response.status_code r3) = false ->
  Response.content r3 <> create_sample_data ->
  exists w',
    main_try transport client w = (Ok None, w')
    /\ stdout w'
       = app (stdout w)
           (app ["📊 Sample data created ("
                   ++ str_int (len create_sample_data) ++ " bytes)";
                 "📝 Storing blob (" ++ str_int (len create_sample_data)
                   ++ " bytes) for " ++ str_int 3 ++ " epochs...";
                 "✅ Blob stored successfully!";
                 "📋 Blob ID: " ++ py_str v;
                 "📏 Original size: " ++ str_int (len create_sample_data) ++ " bytes";
                 "⏰ Storage epochs: 3";
                 "📋 Blob ID: " ++ py_str v ++ nl;
                 "⏳ Waiting for blob to propagate...";
                 "🔍 Checking blob status..."]
              (app (status_lines d)
                 (app ["📥 Retrieving blob: " ++ py_str v;
                       "✅ Blob retrieved successfully! ("
                         ++ str_int (len (Response.content r3)) ++ " bytes)"]
                    (mismatch_lines create_sample_data v (Response.content r3))))).
Proof.
  intros Ht1 Hs1 Hjson Hid Hv Ht2 Hd Ht3 Hs3 Hne.
  unfold main_try. rewrite bind_print, bind_run, store_blob_run.
  change (net (after_print w _)) with (net w). rewrite Ht1.
  unfold store_blob_on. rewrite Hs1, Hjson. cbn [fst snd].
  unfold dict_get. rewrite bind_ret, Hid, Hv. cbv beta iota. cbn [negb].
  rewrite !bind_print, bind_sleep, bind_print, bind_run, check_blob_status_run.
  cbn [net after_call after_print]. rewrite Ht2, Hd.
  rewrite bind_run, (show_status_run a2 d _ Hd).
  rewrite bind_run, retrieve_blob_run.
  cbn [net after_call after_print]. rewrite Ht3.
  unfold retrieve_blob_on. rewrite Hs3. cbn [fst snd].
  rewrite bind_run, verify_and_summarise_mismatch by done.
  eexists. split; [reflexivity |].
  repeat first [ rewrite stdout_after_print | rewrite stdout_after_call
               | progress cbn [stdout] ].
  rewrite <- !app_assoc. reflexivity.
Qed.

(** C4, as the script has it. When store, the status probe and retrieve all
    return and the retrieved bytes differ from the bytes that were stored,
    nothing is raised: [main] returns 0. Everything it prints is fixed: the
    banner, the lines of the three operations, then the failed check, a
    warning with both sizes and the summary ending in
    [Data integrity: ❌ Failed]; none of these lines is an error line. *)
Theorem integrity_mismatch_is_reported w r1 n1 kv v a2 n2 d r3 n3 :
  let client := init PUBLISHER_URL AGGREGATOR_URL in
  transport (session client) (store_request client create_sample_data 3) (net w)
    = (inl r1, n1) ->
  is_error_status (Response.status_code r1) = false ->
  Response.json r1 = inr (JObj kv) ->
  assoc "blobId" kv = Some v ->
  truthy v = true ->
  transport (session client) (status_request client (py_str v)) n1 = (a2, n2) ->
  check_blob_status_on a2 = Ok d ->
  transport (session client) (retrieve_request client (py_str v)) n2 = (inl r3, n3) ->
  is_error_status (Response.status_code r3) = false ->
  Response.content r3 <> create_sample_data ->
  exists w' printed,
    main transport w = (Ok (RetInt 0), w')
    /\ fst (script transport w) = 0
    /\ stdout w' = app (stdout w) printed
    /\ printed
       = app ["🌊 Walrus Python Basic Example - Store and Retrieve Blob";
              "========================================================" ++ nl;
              "📊 Sample data created ("
                ++ str_int (len create_sample_data) ++ " bytes)";
              "📝 Storing blob (" ++ str_int (len create_sample_data)
                ++ " bytes) for " ++ str_int 3 ++ " epochs...";
              "✅ Blob stored successfully!";
              "📋 Blob ID: " ++ py_str v;
              "📏 Original size: " ++ str_int (len create_sample_data) ++ " bytes";
              "⏰ Storage epochs: 3";
              "📋 Blob ID: " ++ py_str v ++ nl;
              "⏳ Waiting for blob to propagate...";
              "🔍 Checking blob status..."]
           (app (status_lines d)
              (app ["📥 Retrieving blob: " ++ py_str v;
                    "✅ Blob retrieved successfully! ("
                      ++ str_int (len (Response.content r3)) ++ " bytes)"]
                 (mismatch_lines create_sample_data v (Response.content r3))))
    /\ Forall (fun line => String.prefix "❌ Error" line = false) printed.
Proof.
  intros client Ht1 Hs1 Hjson Hid Hv Ht2 Hd Ht3 Hs3 Hne.
  destruct (main_try_mismatch client
              (after_print w
                 ["🌊 Walrus Python Basic Example - Store and Retrieve Blob";
                  "========================================================" ++ nl])
              r1 n1 kv v a2 n2 d r3 n3 Ht1 Hs1 Hjson Hid Hv Ht2 Hd Ht3 Hs3 Hne)
    as (w' & Htry & Hout).
  assert (main transport w = (Ok (RetInt 0), w')) as Hmain.
  { rewrite main_run. cbv zeta. fold client. by rewrite Htry. }
  exists w'. eexists.
  split; [exact Hmain |]. split; [unfold script; by rewrite Hmain |].
  split; [| split; [reflexivity |]].
  - rewrite Hout, stdout_after_print, <- app_assoc. reflexivity.
  - cbn [app]. repeat (apply Forall_cons; split; [reflexivity |]).
    apply Forall_app. split; [exact (status_lines_no_error a2 d Hd) |].
    unfold mismatch_lines.
    repeat (apply Forall_cons; split; [reflexivity |]).
    apply Forall_nil. done.
Qed.
End Properties.

(** ** Further properties of the client and of [main] *)

Section Further.
Context `{Runtime} {NetState : Type}.
Variable transport :
  Session -> Request.t -> NetState -> (Response.t + exn) * NetState.

Implicit Types (w : World NetState) (self : WalrusClient) (r : Response.t).

(** *** [__init__] and trailing slashes *)

Lemma rstrip_slash_app_slash s : rstrip_slash (s ++ "/") = rstrip_slash s.
Proof.
  induction s as [| c rest IH]; simpl; [reflexivity |].
  by rewrite IH.
Qed.

Lemma rstrip_slash_no_trailing s t : rstrip_slash s <> t ++ "/".
Proof.
  revert t. induction s as [| c rest IH]; intros t; simpl.
  - by destruct t.
  - destruct (rstrip_slash rest) as [| d r'] eqn:Hrest.
    + destruct (Ascii.eqb_spec c "/") as [-> | Hc].
      * by destruct t.
      * destruct t as [| c' t']; simpl; [by intros [= ->] |].
        intros [= _ Ht]. by destruct t'.
    + destruct t as [| c' t']; simpl; [discriminate |].
      intros [= _ Ht]. by apply (IH t').
Qed.

Lemma rstrip_slash_fixed s : (forall t, s <> t ++ "/") -> rstrip_slash s = s.
Proof.
  induction s as [| c rest IH]; intros Hs; simpl; [reflexivity |].
  destruct rest as [| d rest'].
  - simpl. destruct (Ascii.eqb_spec c "/") as [-> | Hc]; [| reflexivity].
    by destruct (Hs "").
  - rewrite IH; [reflexivity |].
    intros t Ht. apply (Hs (String c t)). simpl. by rewrite Ht.
Qed.

(** X1. The constructor strips every trailing slash of both URLs: the
    stored URLs never end in a slash, a URL without a trailing slash is kept
    as given, and a client built from a URL with one more trailing slash is
    the same client. *)
Theorem init_strips_trailing_slashes (publisher aggregator : string) :
  (forall t, publisher_url (init publisher aggregator) <> t ++ "/")
  /\ (forall t, aggregator_url (init publisher aggregator) <> t ++ "/")
  /\ init (publisher ++ "/") (aggregator ++ "/") = init publisher aggregator
  /\ ((forall t, publisher <> t ++ "/") ->
      publisher_url (init publisher aggregator) = publisher)
  /\ ((forall t, aggregator <> t ++ "/") ->
      aggregator_url (init publisher aggregator) = aggregator).
Proof.
  unfold init; simpl.
  split; [apply rstrip_slash_no_trailing |].
  split; [apply rstrip_slash_no_trailing |].
  split; [by rewrite !rstrip_slash_app_slash |].
  split; apply rstrip_slash_fixed.
Qed.

(** *** Edge cases of the three operations *)

(** X2. A store answer with a non-error status whose JSON document is not
    an object (a list, a string, a number, [null]) makes [store_blob] raise
    [AttributeError] from [result.get]. The success line is already out, and
    the handler of [store_blob], which only takes [RequestException], prints
    nothing for it. *)
Theorem store_non_object_json self data epochs w r n' v :
  transport (session self) (store_request self data epochs) (net w) = (inl r, n') ->
  is_error_status (Response.status_code r) = false ->
  Response.json r = inr v ->
  (forall kv, v <> JObj kv) ->
  store_blob transport self data epochs w
    = (Raise (mkExn AttributeError
                ("'" ++ type_name v ++ "' object has no attribute 'get'") None),
       after_call w (store_request self data epochs) n'
         ["📝 Storing blob (" ++ str_int (len data) ++ " bytes) for "
            ++ str_int epochs ++ " epochs...";
          "✅ Blob stored successfully!"]).
Proof.
  intros Ht Hs Hjson Hv.
  rewrite store_blob_run, Ht. unfold store_blob_on. rewrite Hs, Hjson.
  destruct v; try reflexivity. by destruct (Hv kv).
Qed.

(** X3. A store answer with a non-error status whose body is not JSON makes
    [store_blob] raise the decoding error of the library; it is a
    [RequestException], so the handler reports it as a store error, without
    status or response lines, and no success line is printed. *)
Theorem store_invalid_json_reported self data epochs w r n' msg :
  transport (session self) (store_request self data epochs) (net w) = (inl r, n') ->
  is_error_status (Response.status_code r) = false ->
  Response.json r = inl msg ->
  store_blob transport self data epochs w
    = (Raise (mkExn JSONDecodeError msg None),
       after_call w (store_request self data epochs) n'
         ["📝 Storing blob (" ++ str_int (len data) ++ " bytes) for "
            ++ str_int epochs ++ " epochs...";
          "❌ Error storing blob: " ++ msg]).
Proof.
  intros Ht Hs Hjson.
  rewrite store_blob_run, Ht. unfold store_blob_on. by rewrite Hs, Hjson.
Qed.

(** X4. What [store_blob] and [retrieve_blob] print when they fail. On a
    status from 400 to 599 they print their error line with the text of the
    HTTP error, then the status code and the text of the response. On a
    [RequestException] without a response (a refused connection, a timeout)
    they print the error line alone. On an exception of the transport that
    is no [RequestException] they print nothing after their first line. *)
Theorem failure_reports self data epochs blob_id w :
  (forall r n',
     transport (session self) (store_request self data epochs) (net w) = (inl r, n') ->
     is_error_status (Response.status_code r) = true ->
     stdout (snd (store_blob transport self data epochs w))
       = app (stdout w)
          ["📝 Storing blob (" ++ str_int (len data) ++ " bytes) for "
             ++ str_int epochs ++ " epochs...";
           "❌ Error storing blob: " ++ http_error_msg r;
           "   Status: " ++ str_int (Response.status_code r);
           "   Response: " ++ Response.text r])
  /\ (forall r n',
        transport (session self) (retrieve_request self blob_id) (net w) = (inl r, n') ->
        is_error_status (Response.status_code r) = true ->
        stdout (snd (retrieve_blob transport self blob_id w))
          = app (stdout w)
             ["📥 Retrieving blob: " ++ blob_id;
              "❌ Error retrieving blob: " ++ http_error_msg r;
              "   Status: " ++ str_int (Response.status_code r);
              "   Response: " ++ Response.text r])
  /\ (forall e n',
        transport (session self) (store_request self data epochs) (net w) = (inr e, n') ->
        exn_response e = None ->
        stdout (snd (store_blob transport self data epochs w))
          = app (stdout w)
             (("📝 Storing blob (" ++ str_int (len data) ++ " bytes) for "
                 ++ str_int epochs ++ " epochs...")
              :: if is_RequestException e
                 then ["❌ Error storing blob: " ++ exn_str e] else []))
  /\ (forall e n',
        transport (session self) (retrieve_request self blob_id) (net w) = (inr e, n') ->
        exn_response e = None ->
        stdout (snd (retrieve_blob transport self blob_id w))
          = app (stdout w)
             (("📥 Retrieving blob: " ++ blob_id)
              :: if is_RequestException e
                 then ["❌ Error retrieving blob: " ++ exn_str e] else [])).
Proof.
  rewrite store_blob_run, retrieve_blob_run.
  split; [| split; [| split]].
  - intros r n' -> Hs. unfold store_blob_on. by rewrite Hs.
  - intros r n' -> Hs. unfold retrieve_blob_on. by rewrite Hs.
  - intros e n' -> He. unfold store_blob_on, response_lines; simpl.
    rewrite He. by destruct (is_RequestException e).
  - intros e n' -> He. unfold retrieve_blob_on, response_lines; simpl.
    rewrite He. by destruct (is_RequestException e).
Qed.

(** X5. The status probe is silent: whatever the answer, and whether it
    returns or raises, [check_blob_status] prints nothing. *)
Theorem check_status_prints_nothing self blob_id w :
  stdout (snd (check_blob_status transport self blob_id w)) = stdout w.
Proof.
  rewrite check_blob_status_run.
  destruct (transport (session self) (status_request self blob_id) (net w))
    as [a n'].
  simpl. apply app_nil_r.
Qed.

(** X6. A status answer with a non-error status whose [content-length] is
    not an integer makes [check_blob_status] raise the [ValueError] of
    [int]: it is no [RequestException], so the handler does not see it and
    no dictionary is returned, although the blob exists. *)
Theorem check_status_malformed_length self blob_id w r n' s msg :
  transport (session self) (status_request self blob_id) (net w) = (inl r, n') ->
  is_error_status (Response.status_code r) = false ->
  Response.headers r !! "content-length" = Some s ->
  py_int s = inl msg ->
  fst (check_blob_status transport self blob_id w)
    = Raise (mkExn ValueError msg None)
  /\ is_RequestException (mkExn ValueError msg None) = false.
Proof.
  intros Ht Hs Hlen Hint.
  rewrite check_blob_status_run, Ht. unfold check_blob_status_on; simpl.
  by rewrite Hs, Hlen, Hint.
Qed.

(** X13. [store_blob] does not look for the identifier: an answer with a
    non-error status and a JSON object without ['blobId'] is a success for
    it. It prints the success line, prints [Unknown] as the identifier, and
    returns the object as it is. *)
Theorem store_without_blob_id_returns self data epochs w r n' kv :
  transport (session self) (store_request self data epochs) (net w) = (inl r, n') ->
  is_error_status (Response.status_code r) = false ->
  Response.json r = inr (JObj kv) ->
  assoc "blobId" kv = None ->
  store_blob transport self data epochs w
    = (Ok (JObj kv),
       after_call w (store_request self data epochs) n'
         ["📝 Storing blob (" ++ str_int (len data) ++ " bytes) for "
            ++ str_int epochs ++ " epochs...";
          "✅ Blob stored successfully!";
          "📋 Blob ID: Unknown"]).
Proof.
  intros Ht Hs Hjson Hid.
  rewrite store_blob_run, Ht. unfold store_blob_on.
  by rewrite Hs, Hjson, Hid.
Qed.

(** *** The course of [main] *)

(** Printing the status and the verdict touches neither the network nor
    the record of calls and sleeps. *)
Lemma prints_only_ret {A} (a : A) : prints_only (ret (NetState := NetState) a).
Proof. intros w. repeat split. exists []. by rewrite app_nil_r. Qed.

Lemma prints_only_raise {A} e : prints_only (raise (NetState := NetState) (A := A) e).
Proof. intros w. repeat split. exists []. by rewrite app_nil_r. Qed.

Lemma prints_only_print line : prints_only (print (NetState := NetState) line).
Proof. intros w. repeat split. by exists [line]. Qed.

Lemma prints_only_bind {A B} (c : M NetState A) (k : A -> M NetState B) :
  prints_only c -> (forall a, prints_only (k a)) -> prints_only (bind c k).
Proof.
  intros Hc Hk w. rewrite bind_run.
  destruct (Hc w) as (Hnet & Hcalls & Hslept & lines & Hout).
  destruct (c w) as [[a | e] w1]; simpl in *.
  - destruct (Hk a w1) as (Hnet' & Hcalls' & Hslept' & lines' & Hout').
    rewrite Hnet', Hcalls', Hslept', Hout', Hnet, Hcalls, Hslept, Hout.
    repeat split. exists (lines ++ lines')%list. by rewrite app_assoc.
  - repeat split; try done. by exists lines.
Qed.

Ltac prints_only_step :=
  first
    [ apply prints_only_ret
    | apply prints_only_raise
    | apply prints_only_print
    | apply prints_only_bind; [| intros ?]
    | match goal with
      | |- prints_only (match ?x with _ => _ end) => destruct x
      end ].

Lemma show_status_prints_only d : prints_only (show_status (NetState := NetState) d).
Proof. unfold show_status, getitem. repeat prints_only_step. Qed.

Lemma verify_and_summarise_prints_only sample_data blob_id retrieved_data :
  prints_only
    (verify_and_summarise (NetState := NetState) sample_data blob_id retrieved_data).
Proof.
  unfold verify_and_summarise, show_retrieved. cbv zeta.
  repeat prints_only_step.
Qed.

Lemma show_status_frame d w :
  net (snd (show_status d w)) = net w
  /\ calls (snd (show_status d w)) = calls w
  /\ slept (snd (show_status d w)) = slept w.
Proof. destruct (show_status_prints_only d w) as (? & ? & ? & _). auto. Qed.

Lemma verify_and_summarise_frame sample_data blob_id retrieved_data w :
  net (snd (verify_and_summarise sample_data blob_id retrieved_data w)) = net w
  /\ calls (snd (verify_and_summarise sample_data blob_id retrieved_data w)) = calls w
  /\ slept (snd (verify_and_summarise sample_data blob_id retrieved_data w)) = slept w.
Proof.
  destruct (verify_and_summarise_prints_only sample_data blob_id retrieved_data w)
    as (? & ? & ? & _). auto.
Qed.

(** The calls and sleeps of the [try] block of [main]. *)
Lemma main_try_calls client w :
  let w' := snd (main_try transport client w) in
  let put := store_request client create_sample_data 3 in
  (calls w' = (calls w ++ [put])%list /\ slept w' = slept w)
  \/ exists blob_id,
       slept w' = (slept w ++ [2])%list
       /\ (calls w' = (calls w ++ [put; status_request client blob_id])%list
           \/ calls w' = (calls w ++ [put; status_request client blob_id;
                                      retrieve_request client blob_id])%list).
Proof.
  unfold main_try. rewrite bind_print, bind_run, store_blob_run. simpl.
  destruct (transport (session client) (store_request client create_sample_data 3)
              (net w)) as [a1 n1].
  destruct (store_blob_on a1) as [[store_result | e] lines1]; simpl;
    [| by left].
  unfold dict_get. destruct store_result; simpl; try by left.
  rewrite bind_ret.
  set (blob_id := match assoc "blobId" kv with Some v => v | None => JNull end).
  destruct (negb (truthy blob_id)); simpl; [by left |].
  right. exists (py_str blob_id).
  rewrite !bind_print, bind_sleep, bind_print, bind_run, check_blob_status_run.
  simpl.
  destruct (transport (session client) (status_request client (py_str blob_id)) n1)
    as [a2 n2].
  destruct (check_blob_status_on a2) as [d | e]; simpl;
    [| split; [done | left; by rewrite <- app_assoc]].
  rewrite bind_run.
  match goal with
  | |- context [show_status d ?w2] =>
      destruct (show_status_frame d w2) as (Hnet & Hcalls & Hslept);
      destruct (show_status d w2) as [[[] | e] w3]
  end; simpl in *;
    [| split; [done | left; by rewrite Hcalls, <- app_assoc]].
  rewrite bind_run, retrieve_blob_run, Hnet.
  destruct (transport (session client) (retrieve_request client (py_str blob_id)) n2)
    as [a3 n3].
  destruct (retrieve_blob_on a3) as [[retrieved_data | e] lines3]; simpl;
    [| split; [done | right; by rewrite Hcalls, <- !app_assoc]].
  rewrite bind_run.
  match goal with
  | |- context [verify_and_summarise ?sd ?id ?rd ?w4] =>
      destruct (verify_and_summarise_frame sd id rd w4) as (_ & Hcalls' & Hslept');
      destruct (verify_and_summarise sd id rd w4) as [[[] | e] w5]
  end; simpl in *;
    (split; [by rewrite Hslept', Hslept
            | right; by rewrite Hcalls', Hcalls, <- !app_assoc]).
Qed.

(** What is left of [main] once its [try] block is done. *)
Lemma main_world w :
  let w1 := snd (main_try transport (init PUBLISHER_URL AGGREGATOR_URL)
                   (after_print w
                      ["🌊 Walrus Python Basic Example - Store and Retrieve Blob";
                       "========================================================" ++ nl])) in
  exists v w' lines,
    main transport w = (Ok v, w')
    /\ (v = RetNone \/ v = RetInt 0 \/ v = RetInt 1)
    /\ net w' = net w1
    /\ calls w' = calls w1
    /\ slept w' = slept w1
    /\ stdout w' = app (stdout w1) lines.
Proof.
  rewrite main_run. cbv zeta.
  destruct (main_try _ _ _) as [[v | e] w'] eqn:Htry; cbn [snd].
  - apply main_try_returns in Htry as [-> | ->];
      do 2 eexists; exists []; rewrite app_nil_r; (split; [reflexivity |]); auto.
  - destruct (main_except_run e w') as [tip ->].
    do 3 eexists. split; [reflexivity |]. cbn. auto 10.
Qed.

(** X8. A run of [main] issues one, two or three calls and never more: the
    store, then the status probe and the retrieve of one and the same
    identifier, in this order and each at most once. It sleeps at most
    once, for 2 seconds, and only when it goes on after the store; a run
    that stops after the store does not sleep. *)
Theorem main_call_sequence w :
  let w' := snd (main transport w) in
  let client := init PUBLISHER_URL AGGREGATOR_URL in
  let put := store_request client create_sample_data 3 in
  (calls w' = (calls w ++ [put])%list /\ slept w' = slept w)
  \/ exists blob_id,
       slept w' = (slept w ++ [2])%list
       /\ (calls w' = (calls w ++ [put; status_request client blob_id])%list
           \/ calls w' = (calls w ++ [put; status_request client blob_id;
                                      retrieve_request client blob_id])%list).
Proof.
  destruct (main_world w) as (v & w' & lines & Hmain & _ & _ & Hcalls & Hslept & _).
  rewrite Hmain. cbv zeta. simpl. rewrite Hcalls, Hslept.
  apply (main_try_calls (init PUBLISHER_URL AGGREGATOR_URL)
           (after_print w
              ["🌊 Walrus Python Basic Example - Store and Retrieve Blob";
               "========================================================" ++ nl])).
Qed.



Lemma verify_and_summarise_stdout sample_data blob_id retrieved_data w :
  exists lines,
    stdout (snd (verify_and_summarise sample_data blob_id retrieved_data w))
      = (stdout w ++ lines)%list.
Proof.
  by destruct (verify_and_summarise_prints_only sample_data blob_id retrieved_data w)
    as (_ & _ & _ & Hout).
Qed.

(** The [try] block up to the retrieve, when the store and the status probe
    return. *)
Lemma main_try_reaches_retrieve client w r1 n1 kv v a2 n2 d :
  transport (session client) (store_request client create_sample_data 3) (net w)
    = (inl r1, n1) ->
  is_error_status (Response.status_code r1) = false ->
  Response.json r1 = inr (JObj kv) ->
  assoc "blobId" kv = Some v ->
  truthy v = true ->
  transport (session client) (status_request client (py_str v)) n1 = (a2, n2) ->
  check_blob_status_on a2 = Ok d ->
  exists w2,
    main_try transport client w
      = bind (retrieve_blob transport client (py_str v))
          (fun retrieved_data =>
             bind (verify_and_summarise create_sample_data v retrieved_data)
               (fun _ => ret None)) w2
    /\ net w2 = n2
    /\ calls w2 = (calls w ++ [store_request client create_sample_data 3;
                               status_request client (py_str v)])%list
    /\ slept w2 = (slept w ++ [2])%list
    /\ exists before, stdout w2 = (before ++ status_lines d)%list.
Proof.
  intros Ht1 Hs1 Hjson Hid Hv Ht2 Hd.
  unfold main_try. rewrite bind_print, bind_run, store_blob_run.
  simpl. rewrite Ht1.
  unfold store_blob_on. rewrite Hs1, Hjson; simpl.
  rewrite bind_ret, Hid, Hv; simpl.
  rewrite !bind_print, bind_sleep, bind_print, bind_run, check_blob_status_run.
  simpl. rewrite Ht2, Hd.
  rewrite bind_run, (show_status_run a2 d _ Hd).
  eexists. split; [reflexivity |]. simpl.
  split; [done |]. split; [by rewrite <- app_assoc |]. split; [done |].
  eexists. reflexivity.
Qed.


(** The handler of [main] prints the error line and at most one tip. *)
Lemma main_except_tip e :
  exists tip,
    (length tip <= 1)%nat
    /\ forall w, main_except e w
         = (Ok (Some (RetInt 1)),
            after_print w (("❌ Error: " ++ exn_str e) :: tip)).
Proof.
  unfold main_except.
  destruct (contains "connection" _); [| destruct (contains "timeout" _);
    [| destruct (contains "404" _)]];
    eexists; (split; [| intros w; rewrite ?bind_bind, !bind_print; cbv beta;
                         rewrite ?bind_ret; unfold ret;
                         rewrite ?after_print_app; reflexivity]);
    simpl; lia.
Qed.

(** The [try] block when the store call fails. *)
Lemma main_try_store_fails client w e n' :
  transport (session client) (store_request client create_sample_data 3) (net w)
    = (inr e, n') ->
  is_RequestException e = true ->
  main_try transport client w
    = (Raise e,
       after_call
         (after_print w
            ["📊 Sample data created ("
               ++ str_int (len create_sample_data) ++ " bytes)"])
         (store_request client create_sample_data 3) n'
         (("📝 Storing blob (" ++ str_int (len create_sample_data)
             ++ " bytes) for " ++ str_int 3 ++ " epochs...")
          :: ("❌ Error storing blob: " ++ exn_str e) :: response_lines e)).
Proof.
  intros Ht He.
  unfold main_try. rewrite bind_print, bind_run, store_blob_run.
  change (net (after_print w _)) with (net w). rewrite Ht.
  unfold store_blob_on. by rewrite He.
Qed.

(** X10. When the store call fails with a [RequestException], the failure
    is reported twice, by the handler of [store_blob] and by the one of
    [main], with the lines of the response in between when there is one and
    at most one tip at the end; [main] makes no other call, does not sleep,
    and returns 1. *)
Theorem store_failure_ends_run w e n' :
  let client := init PUBLISHER_URL AGGREGATOR_URL in
  transport (session client) (store_request client create_sample_data 3) (net w)
    = (inr e, n') ->
  is_RequestException e = true ->
  exists w' tip,
    main transport w = (Ok (RetInt 1), w')
    /\ fst (script transport w) = 1
    /\ calls w' = (calls w ++ [store_request client create_sample_data 3])%list
    /\ slept w' = slept w
    /\ (length tip <= 1)%nat
    /\ stdout w'
       = app (stdout w)
           (app ["🌊 Walrus Python Basic Example - Store and Retrieve Blob";
                 "========================================================" ++ nl;
                 "📊 Sample data created ("
                   ++ str_int (len create_sample_data) ++ " bytes)";
                 "📝 Storing blob (" ++ str_int (len create_sample_data)
                   ++ " bytes) for " ++ str_int 3 ++ " epochs...";
                 "❌ Error storing blob: " ++ exn_str e]
              (app (response_lines e) (("❌ Error: " ++ exn_str e) :: tip))).
Proof.
  intros client Ht He.
  destruct (main_except_tip e) as (tip & Hlen & Hexcept).
  pose proof (main_try_store_fails client
                (after_print w
                   ["🌊 Walrus Python Basic Example - Store and Retrieve Blob";
                    "========================================================" ++ nl])
                e n' Ht He) as Htry.
  eexists _, tip.
  assert (forall w', main transport w = (Ok (RetInt 1), w') ->
            fst (script transport w) = 1) as Hscript
    by (intros w' Hmain; unfold script; by rewrite Hmain).
  assert (main transport w = _) as Hmain
    by (rewrite main_run; cbv zeta; fold client; rewrite Htry, Hexcept;
        reflexivity).
  split; [exact Hmain |]. split; [exact (Hscript _ Hmain) |].
  unfold after_print, after_call; cbn [calls slept stdout].
  split; [done |]. split; [done |]. split; [exact Hlen |].
  by rewrite <- !app_assoc.
Qed.

(** A run whose [try] block raises ends in the handler of [main]. *)
Lemma main_when_try_raises w e w1 :
  main_try transport (init PUBLISHER_URL AGGREGATOR_URL)
    (after_print w
       ["🌊 Walrus Python Basic Example - Store and Retrieve Blob";
        "========================================================" ++ nl])
    = (Raise e, w1) ->
  exists tip,
    main transport w
      = (Ok (RetInt 1), after_print w1 (("❌ Error: " ++ exn_str e) :: tip)).
Proof.
  intros Htry. destruct (main_except_run e w1) as [tip Hexcept].
  exists tip. rewrite main_run. cbv zeta. by rewrite Htry, Hexcept.
Qed.

(** The [try] block when the status probe raises. *)
Lemma main_try_status_raises client w r1 n1 kv v a2 n2 e :
  transport (session client) (store_request client create_sample_data 3) (net w)
    = (inl r1, n1) ->
  is_error_status (Response.status_code r1) = false ->
  Response.json r1 = inr (JObj kv) ->
  assoc "blobId" kv = Some v ->
  truthy v = true ->
  transport (session client) (status_request client (py_str v)) n1 = (a2, n2) ->
  check_blob_status_on a2 = Raise e ->
  exists w2,
    main_try transport client w = (Raise e, w2)
    /\ calls w2 = (calls w ++ [store_request client create_sample_data 3;
                               status_request client (py_str v)])%list
    /\ slept w2 = (slept w ++ [2])%list.
Proof.
  intros Ht1 Hs1 Hjson Hid Hv Ht2 Hd.
  unfold main_try. rewrite bind_print, bind_run, store_blob_run.
  simpl. rewrite Ht1.
  unfold store_blob_on. rewrite Hs1, Hjson; simpl.
  rewrite bind_ret, Hid, Hv; simpl.
  rewrite !bind_print, bind_sleep, bind_print, bind_run, check_blob_status_run.
  simpl. rewrite Ht2, Hd.
  eexists. split; [reflexivity |]. simpl.
  split; [by rewrite <- app_assoc | done].
Qed.

(** The [try] block from the retrieve on: one more call, and more lines. *)
Lemma retrieve_and_verify_world client blob_id v w2 :
  let w3 := snd (bind (retrieve_blob transport client blob_id)
                   (fun retrieved_data =>
                      bind (verify_and_summarise create_sample_data v retrieved_data)
                        (fun _ => ret (None : option pyret))) w2) in
  calls w3 = (calls w2 ++ [retrieve_request client blob_id])%list
  /\ slept w3 = slept w2
  /\ exists lines, stdout w3 = (stdout w2 ++ lines)%list.
Proof.
  rewrite bind_run, retrieve_blob_run.
  destruct (transport (session client) (retrieve_request client blob_id) (net w2))
    as [a3 n3].
  destruct (retrieve_blob_on a3) as [[retrieved_data | e] lines3]; simpl;
    [| split; [done | split; [done | by eexists]]].
  rewrite bind_run.
  match goal with
  | |- context [verify_and_summarise ?sd ?id ?rd ?w4] =>
      destruct (verify_and_summarise_frame sd id rd w4) as (_ & Hcalls & Hslept);
      destruct (verify_and_summarise_stdout sd id rd w4) as (lines & Hout);
      destruct (verify_and_summarise sd id rd w4) as [[[] | e] w5]
  end; simpl in *;
    (split; [done | split; [done |]]);
    exists (("📥 Retrieving blob: " ++ blob_id) :: app lines3 lines);
    by rewrite Hout, <- !app_assoc.
Qed.

(** X11. The status probe does not decide whether the blob is fetched, only
    whether the run goes on. When the probe is answered with a 404, [main]
    prints [Exists: False] and still issues the retrieve of the identifier.
    When the probe is answered with any other status from 400 to 599, the
    run ends there: two calls, no retrieve, exit status 1. *)
Theorem status_probe_and_retrieve w r1 n1 kv v r2 n2 :
  let client := init PUBLISHER_URL AGGREGATOR_URL in
  transport (session client) (store_request client create_sample_data 3) (net w)
    = (inl r1, n1) ->
  is_error_status (Response.status_code r1) = false ->
  Response.json r1 = inr (JObj kv) ->
  assoc "blobId" kv = Some v ->
  truthy v = true ->
  transport (session client) (status_request client (py_str v)) n1 = (inl r2, n2) ->
  is_error_status (Response.status_code r2) = true ->
  (Response.status_code r2 = 404 ->
     calls (snd (main transport w))
       = (calls w ++ [store_request client create_sample_data 3;
                      status_request client (py_str v);
                      retrieve_request client (py_str v)])%list
     /\ "   • Exists: False" ∈ stdout (snd (main transport w)))
  /\ (Response.status_code r2 <> 404 ->
        calls (snd (main transport w))
          = (calls w ++ [store_request client create_sample_data 3;
                         status_request client (py_str v)])%list
        /\ fst (script transport w) = 1).
Proof.
  intros client Ht1 Hs1 Hjson Hid Hv Ht2 Hs2.
  destruct (main_world w) as (ret_v & w' & lines & Hmain & _ & _ & Hcalls & _ & Hout).
  split; intros Hcode.
  - assert (check_blob_status_on (inl r2) = Ok absent) as Hd.
    { unfold check_blob_status_on. rewrite Hs2, is_404_http_error.
      by rewrite Hcode. }
    destruct (main_try_reaches_retrieve client
                (after_print w
                   ["🌊 Walrus Python Basic Example - Store and Retrieve Blob";
                    "========================================================" ++ nl])
                r1 n1 kv v (inl r2) n2 absent Ht1 Hs1 Hjson Hid Hv Ht2 Hd)
      as (w2 & Htry & _ & Hcalls2 & _ & before & Hout2).
    destruct (retrieve_and_verify_world client (py_str v) v w2)
      as (Hcalls3 & _ & lines3 & Hout3).
    rewrite Hmain. simpl. fold client in Hcalls, Hout.
    rewrite Hcalls, Hout, Htry, Hcalls3, Hout3, Hcalls2, Hout2.
    split; [by rewrite <- !app_assoc |].
    change (status_lines absent) with ["   • Exists: False"].
    set_solver.
  - assert (check_blob_status_on (inl r2) = Raise (http_error r2)) as Hd.
    { unfold check_blob_status_on. rewrite Hs2, is_404_http_error.
      by destruct (Z.eqb_spec (Response.status_code r2) 404). }
    destruct (main_try_status_raises client
                (after_print w
                   ["🌊 Walrus Python Basic Example - Store and Retrieve Blob";
                    "========================================================" ++ nl])
                r1 n1 kv v (inl r2) n2 (http_error r2)
                Ht1 Hs1 Hjson Hid Hv Ht2 Hd)
      as (w2 & Htry & Hcalls2 & _).
    destruct (main_when_try_raises w (http_error r2) w2 Htry) as [tip Hmain'].
    unfold script. rewrite Hmain'. simpl. by rewrite Hcalls2.
Qed.

End Further.

(** ** Runs against the scripted service *)

Import Scripted.

(** A complete run that ends well, and one that cannot connect. *)
Example run_success :
  fst (script Scripted.transport
         (start [inl (stored "abc");
                 inl (served [] {[ "content-length" := "2" ]});
                 inl (served create_sample_data ∅)])) = 0.
Proof. vm_compute. reflexivity. Qed.

Example run_unreachable :
  fst (script Scripted.transport (start [])) = 1.
Proof. vm_compute. reflexivity. Qed.

Lemma check_status_not_found_or_propagate_witness :
  fst (check_blob_status Scripted.transport client "abc" (start [inl (failure 404)]))
    = Ok {[ "exists" := PBool false ]}
  /\ fst (check_blob_status Scripted.transport client "abc" (start [inl (failure 500)]))
       = Raise (mkExn HTTPError (http_error_msg (failure 500)) (Some (failure 500)))
  /\ fst (check_blob_status Scripted.transport client "abc" (start []))
       = Raise refused.
Proof.
  destruct (check_status_not_found_or_propagate Scripted.transport client "abc"
              (start [inl (failure 404)]) (inl (failure 404)) [] eq_refl)
    as (Hnot_found & _).
  destruct (check_status_not_found_or_propagate Scripted.transport client "abc"
              (start [inl (failure 500)]) (inl (failure 500)) [] eq_refl)
    as (_ & Hother & _).
  destruct (check_status_not_found_or_propagate Scripted.transport client "abc"
              (start []) (inr refused) [] eq_refl)
    as (_ & _ & Hraised & _).
  split; [| split].
  - apply (Hnot_found (failure 404)); reflexivity.
  - apply (Hother (failure 500)); [reflexivity | reflexivity | discriminate].
  - apply (Hraised refused); reflexivity.
Defined.

Lemma endpoints_and_results_witness :
  fst (store_blob Scripted.transport client payload 3 (start [inl (stored "abc")]))
    = Ok (JObj [("blobId", JStr "abc")])
  /\ fst (retrieve_blob Scripted.transport client "abc"
            (start [inl (served payload ∅)])) = Ok payload
  /\ fst (check_blob_status Scripted.transport client "abc"
            (start [inl (served [] {[ "content-length" := "1";
                                      "content-type" := "text/plain" ]})]))
       = Ok {[ "exists" := PBool true; "size" := PInt 1;
               "content_type" := PStr "text/plain" ]}.
Proof.
  destruct (endpoints_and_results Scripted.transport client payload 3 "abc"
              (start [inl (stored "abc")])) as ((_ & Hstore) & _).
  destruct (endpoints_and_results Scripted.transport client payload 3 "abc"
              (start [inl (served payload ∅)])) as (_ & (_ & Hretrieve) & _).
  destruct (endpoints_and_results Scripted.transport client payload 3 "abc"
              (start [inl (served [] {[ "content-length" := "1";
                                        "content-type" := "text/plain" ]})]))
    as (_ & _ & (_ & Hstatus)).
  split; [| split].
  - apply (Hstore (stored "abc") []); reflexivity.
  - apply (Hretrieve (served payload ∅) []); reflexivity.
  - rewrite (Hstatus (served [] {[ "content-length" := "1";
                                   "content-type" := "text/plain" ]}) [] 1
               eq_refl eq_refl eq_refl).
    reflexivity.
Defined.

Lemma check_status_concrete_fields_witness :
  (exists d, fst (check_blob_status Scripted.transport client "abc"
                    (start [inl (served payload ∅)])) = Ok d
     /\ d !! "size" = Some (PInt 0))
  /\ (forall d, fst (check_blob_status Scripted.transport client "abc"
                       (start [inl (served payload ∅)])) = Ok d ->
        d !! "content_type" = Some (PStr "unknown")).
Proof.
  assert (200 <= Response.status_code (served payload ∅) < 300) as Hcode
    by (simpl; lia).
  destruct (check_status_concrete_fields Scripted.transport client "abc"
              (start [inl (served payload ∅)]) (served payload ∅) [] eq_refl Hcode)
    as (_ & Hsize & _ & Htype).
  split.
  - apply Hsize. reflexivity.
  - apply Htype. reflexivity.
Defined.

Lemma store_and_retrieve_raise_witness :
  fst (store_blob Scripted.transport client payload 3 (start [])) = Raise refused
  /\ fst (store_blob Scripted.transport client payload 3 (start [inl (failure 503)]))
     = Raise (mkExn HTTPError (http_error_msg (failure 503)) (Some (failure 503)))
  /\ fst (retrieve_blob Scripted.transport client "abc" (start [inl (failure 404)]))
     = Raise (mkExn HTTPError (http_error_msg (failure 404)) (Some (failure 404)))
  /\ fst (retrieve_blob Scripted.transport client "abc"
            (start [inl (served payload ∅)])) = Ok payload.
Proof.
  destruct (store_and_retrieve_raise Scripted.transport client payload 3 "abc"
              (start [])) as ((_ & _ & Hraised & _) & _).
  destruct (store_and_retrieve_raise Scripted.transport client payload 3 "abc"
              (start [inl (failure 503)])) as ((_ & _ & _ & Hstatus & _) & _).
  destruct (store_and_retrieve_raise Scripted.transport client payload 3 "abc"
              (start [inl (failure 404)])) as (_ & _ & _ & _ & Hnot_found & _).
  destruct (store_and_retrieve_raise Scripted.transport client payload 3 "abc"
              (start [inl (served payload ∅)])) as (_ & _ & _ & _ & _ & Hbody).
  split; [| split; [| split]].
  - apply (Hraised refused []). reflexivity.
  - apply (Hstatus (failure 503) []); [reflexivity | simpl; lia].
  - apply (Hnot_found (failure 404) []); [reflexivity | simpl; lia].
  - apply (Hbody (served payload ∅) []); [reflexivity | simpl; lia].
Defined.

Lemma check_status_after_store_witness :
  exists d,
    fst (check_blob_status Scripted.transport client "abc"
           (snd (store_blob Scripted.transport client payload 3
                   (start [inl (stored "abc");
                           inl (served [] {[ "content-length" := "1" ]})])))) = Ok d
    /\ d !! "exists" = Some (PBool true)
    /\ d !! "size" = Some (PInt (len payload)).
Proof.
  destruct (check_status_after_store Scripted.transport client payload 3
              (start [inl (stored "abc");
                      inl (served [] {[ "content-length" := "1" ]})])
              [("blobId", JStr "abc")]
              (snd (store_blob Scripted.transport client payload 3
                      (start [inl (stored "abc");
                              inl (served [] {[ "content-length" := "1" ]})])))
              "abc" (served [] {[ "content-length" := "1" ]}) []
              eq_refl eq_refl eq_refl eq_refl) as (_ & Hsize & _).
  apply (Hsize "1"); reflexivity.
Defined.

Lemma retrieve_after_store_witness :
  fst (retrieve_blob Scripted.transport client "abc"
         (snd (store_blob Scripted.transport client payload 3
                 (start [inl (stored "abc"); inl (served payload ∅)]))))
    = Ok payload.
Proof.
  destruct (retrieve_after_store Scripted.transport client payload 3
              (start [inl (stored "abc"); inl (served payload ∅)])
              [("blobId", JStr "abc")]
              (snd (store_blob Scripted.transport client payload 3
                      (start [inl (stored "abc"); inl (served payload ∅)])))
              "abc" (served payload ∅) []
              eq_refl eq_refl eq_refl eq_refl) as (_ & _ & Hiff).
  apply Hiff. reflexivity.
Defined.

Lemma missing_blob_id_exits_zero_witness :
  exists w',
    main Scripted.transport (start [inl (response 200 ∅ [] (inr (JObj [])))])
      = (Ok RetNone, w')
    /\ fst (script Scripted.transport
              (start [inl (response 200 ∅ [] (inr (JObj [])))])) = 0
    /\ calls w' = [store_request client create_sample_data 3]
    /\ slept w' = []
    /\ last (stdout w') = Some "❌ Failed to get blob ID from store result".
Proof.
  assert (200 <= Response.status_code (response 200 ∅ [] (inr (JObj []))) < 300)
    as Hcode by (simpl; lia).
  apply (missing_blob_id_exits_zero Scripted.transport
           (start [inl (response 200 ∅ [] (inr (JObj [])))])
           (response 200 ∅ [] (inr (JObj []))) [] [] eq_refl Hcode eq_refl).
  left. reflexivity.
Defined.

Lemma integrity_mismatch_is_reported_witness :
  exists w' printed,
    main Scripted.transport
      (start [inl (stored "abc"); inl (failure 404); inl (served other_bytes ∅)])
      = (Ok (RetInt 0), w')
    /\ fst (script Scripted.transport
              (start [inl (stored "abc"); inl (failure 404);
                      inl (served other_bytes ∅)])) = 0
    /\ stdout w' = printed
    /\ last printed = Some "   • Data integrity: ❌ Failed"
    /\ Forall (fun line => String.prefix "❌ Error" line = false) printed.
Proof.
  assert (Response.content (served other_bytes ∅) <> create_sample_data) as Hne
    by (vm_compute; discriminate).
  destruct (integrity_mismatch_is_reported Scripted.transport
              (start [inl (stored "abc"); inl (failure 404);
                      inl (served other_bytes ∅)])
              (stored "abc") [inl (failure 404); inl (served other_bytes ∅)]
              [("blobId", JStr "abc")] (JStr "abc")
              (inl (failure 404)) [inl (served other_bytes ∅)] absent
              (served other_bytes ∅) []
              eq_refl eq_refl eq_refl eq_refl eq_refl eq_refl eq_refl eq_refl
              eq_refl Hne)
    as (w' & printed & Hmain & Hexit & Hout & Hprinted & Hclean).
  exists w', printed.
  split; [exact Hmain |]. split; [exact Hexit |]. split; [exact Hout |].
  split; [| exact Hclean].
  rewrite Hprinted. reflexivity.
Defined.

(** ** Where the specification and the script part *)

(** C7 does not hold of the script as stated: against a service that
    redirects, one retrieve makes one call of the session, and that call
    sends two HTTP requests. *)
Lemma one_request_counterexample :
  fst (retrieve_blob Redirecting.transport client "abc" Redirecting.start)
    = Ok payload
  /\ calls (snd (retrieve_blob Redirecting.transport client "abc" Redirecting.start))
     = [retrieve_request client "abc"]
  /\ net (snd (retrieve_blob Redirecting.transport client "abc" Redirecting.start))
     = [(GET, "https://aggregator.testnet.walrus.space/v1/abc");
        (GET, "https://aggregator.testnet.walrus.space/v1/abc/")]
  /\ length (net (snd (retrieve_blob Redirecting.transport client "abc"
                         Redirecting.start))) = 2%nat.
Proof. repeat split. Qed.

(** C1 does not hold of the script as stated: retrieve hands back the body
    of the answer as it is. Here store succeeds for one epoch count of at
    least 1 and returns the identifier [abc], the read of [abc] is answered
    with other bytes, and retrieve returns those. *)
Lemma round_trip_counterexample :
  1 <= 3
  /\ fst (store_blob Scripted.transport client payload 3
            (start [inl (stored "abc"); inl (served other_bytes ∅)]))
       = Ok (JObj [("blobId", JStr "abc")])
  /\ fst (retrieve_blob Scripted.transport client "abc"
            (snd (store_blob Scripted.transport client payload 3
                    (start [inl (stored "abc"); inl (served other_bytes ∅)]))))
       = Ok other_bytes
  /\ other_bytes <> payload.
Proof.
  split; [lia |]. split; [reflexivity |]. split; [reflexivity | discriminate].
Qed.

(** C2 does not hold of the script as stated, in two places. Retrieve: the
    call is answered, with status 500, so there is no connection or timeout
    failure; retrieve raises the HTTP error of the library with the 500
    response attached, the same class of exception as on a 404, and not a
    connection error or a timeout. Store: the call is answered with the
    non-2xx status 300 and a JSON object, and store raises nothing. *)
Lemma store_and_retrieve_counterexample :
  (Scripted.transport (session client) (retrieve_request client "abc")
     [inl (failure 500)] = (inl (failure 500), [])
   /\ fst (retrieve_blob Scripted.transport client "abc" (start [inl (failure 500)]))
      = Raise (mkExn HTTPError (http_error_msg (failure 500)) (Some (failure 500)))
   /\ Response.status_code (failure 500) <> 404
   /\ HTTPError <> ConnectionError /\ HTTPError <> Timeout)
  /\ (~ 200 <= 300 < 300
      /\ fst (store_blob Scripted.transport client payload 3
                (start [inl (response 300 ∅ [] (inr (JObj [("blobId", JStr "abc")])))]))
         = Ok (JObj [("blobId", JStr "abc")])).
Proof.
  split.
  - split; [reflexivity |]. split; [reflexivity |]. repeat split; discriminate.
  - split; [lia | reflexivity].
Qed.

(** C4 does not hold of the script as stated: in this run the retrieved
    bytes differ from the sample, the [try] block of [main] ends without
    any exception, no error line is printed, and the exit status is 0. *)
Lemma integrity_mismatch_counterexample :
  other_bytes <> create_sample_data
  /\ fst (main_try Scripted.transport client
            (start [inl (stored "abc"); inl (failure 404);
                    inl (served other_bytes ∅)])) = Ok None
  /\ fst (script Scripted.transport
            (start [inl (stored "abc"); inl (failure 404);
                    inl (served other_bytes ∅)])) = 0
  /\ forallb (fun line => negb (String.prefix "❌ Error:" line))
       (stdout (snd (script Scripted.transport
                       (start [inl (stored "abc"); inl (failure 404);
                               inl (served other_bytes ∅)])))) = true.
Proof.
  split; [vm_compute; discriminate |].
  split; [vm_compute; reflexivity |].
  split; vm_compute; reflexivity.
Qed.

(** C6 does not hold of the script as stated: the probe of a just-stored
    one-byte blob is answered without a [content-length] header, and the
    size it reports is 0. *)
Lemma status_size_counterexample :
  len payload = 1
  /\ fst (store_blob Scripted.transport client payload 3
            (start [inl (stored "abc"); inl (served [] ∅)]))
       = Ok (JObj [("blobId", JStr "abc")])
  /\ fst (check_blob_status Scripted.transport client "abc"
            (snd (store_blob Scripted.transport client payload 3
                    (start [inl (stored "abc"); inl (served [] ∅)]))))
       = Ok {[ "exists" := PBool true; "size" := PInt 0;
               "content_type" := PStr "unknown" ]}.
Proof.
  split; [reflexivity |]. split; reflexivity.
Qed.

(** ** The further properties on the scripted service *)

Lemma init_strips_trailing_slashes_witness :
  init "https://p/" "https://a/" = init "https://p" "https://a"
  /\ publisher_url (init "p" "a") = "p"
  /\ aggregator_url (init "p" "a") = "a".
Proof.
  destruct (init_strips_trailing_slashes "https://p" "https://a")
    as (_ & _ & Hsame & _).
  destruct (init_strips_trailing_slashes "p" "a") as (_ & _ & _ & Hp & Ha).
  split; [| split].
  - exact Hsame.
  - apply Hp. intros [| c [| c' t]]; discriminate.
  - apply Ha. intros [| c [| c' t]]; discriminate.
Defined.

Lemma store_non_object_json_witness :
  fst (store_blob Scripted.transport client payload 3
         (start [inl (response 200 ∅ [] (inr (JArr [])))]))
    = Raise (mkExn AttributeError "'list' object has no attribute 'get'" None).
Proof.
  rewrite (store_non_object_json Scripted.transport client payload 3
             (start [inl (response 200 ∅ [] (inr (JArr [])))])
             (response 200 ∅ [] (inr (JArr []))) [] (JArr [])
             eq_refl eq_refl eq_refl);
    [reflexivity | discriminate].
Defined.

Lemma store_invalid_json_reported_witness :
  stdout (snd (store_blob Scripted.transport client payload 3
                 (start [inl (served [] ∅)])))
    = ["📝 Storing blob (1 bytes) for 3 epochs...";
       "❌ Error storing blob: Expecting value: line 1 column 1 (char 0)"].
Proof.
  rewrite (store_invalid_json_reported Scripted.transport client payload 3
             (start [inl (served [] ∅)]) (served [] ∅) []
             "Expecting value: line 1 column 1 (char 0)"
             eq_refl eq_refl eq_refl).
  reflexivity.
Defined.

Lemma failure_reports_witness :
  stdout (snd (retrieve_blob Scripted.transport client "abc"
                 (start [inl (failure 500)])))
    = ["📥 Retrieving blob: abc";
       "❌ Error retrieving blob: 500 Server Error:  for url: ";
       "   Status: 500";
       "   Response: "]
  /\ stdout (snd (store_blob Scripted.transport client payload 3 (start [])))
     = ["📝 Storing blob (1 bytes) for 3 epochs...";
        "❌ Error storing blob: Connection refused"].
Proof.
  destruct (failure_reports Scripted.transport client payload 3 "abc"
              (start [inl (failure 500)])) as (_ & Hretrieve & _).
  destruct (failure_reports Scripted.transport client payload 3 "abc"
              (start [])) as (_ & _ & Hstore & _).
  split.
  - rewrite (Hretrieve (failure 500) [] eq_refl eq_refl). reflexivity.
  - rewrite (Hstore refused [] eq_refl eq_refl). reflexivity.
Defined.

Lemma check_status_malformed_length_witness :
  fst (check_blob_status Scripted.transport client "abc"
         (start [inl (served [] {[ "content-length" := "1x" ]})]))
    = Raise (mkExn ValueError "invalid literal for int() with base 10: '1x'" None).
Proof.
  apply (check_status_malformed_length Scripted.transport client "abc"
           (start [inl (served [] {[ "content-length" := "1x" ]})])
           (served [] {[ "content-length" := "1x" ]}) [] "1x"
           "invalid literal for int() with base 10: '1x'");
    reflexivity.
Defined.

Lemma store_without_blob_id_returns_witness :
  fst (store_blob Scripted.transport client payload 3
         (start [inl (response 200 ∅ [] (inr (JObj [("id", JStr "abc")])))]))
    = Ok (JObj [("id", JStr "abc")]).
Proof.
  rewrite (store_without_blob_id_returns Scripted.transport client payload 3
             (start [inl (response 200 ∅ [] (inr (JObj [("id", JStr "abc")])))])
             (response 200 ∅ [] (inr (JObj [("id", JStr "abc")]))) []
             [("id", JStr "abc")] eq_refl eq_refl eq_refl eq_refl).
  reflexivity.
Defined.


Lemma store_failure_ends_run_witness :
  exists w' tip,
    main Scripted.transport (start []) = (Ok (RetInt 1), w')
    /\ fst (script Scripted.transport (start [])) = 1
    /\ calls w' = [store_request client create_sample_data 3]
    /\ slept w' = []
    /\ (length tip <= 1)%nat
    /\ stdout w'
       = app []
           (app ["🌊 Walrus Python Basic Example - Store and Retrieve Blob";
                 "========================================================" ++ nl;
                 "📊 Sample data created ("
                   ++ str_int (len create_sample_data) ++ " bytes)";
                 "📝 Storing blob (" ++ str_int (len create_sample_data)
                   ++ " bytes) for " ++ str_int 3 ++ " epochs...";
                 "❌ Error storing blob: " ++ exn_str refused]
              (app (response_lines refused) (("❌ Error: " ++ exn_str refused) :: tip))).
Proof.
  apply (store_failure_ends_run Scripted.transport (start []) refused []
           eq_refl eq_refl).
Defined.

Lemma status_probe_and_retrieve_witness :
  calls (snd (main Scripted.transport
                (start [inl (stored "abc"); inl (failure 404);
                        inl (served other_bytes ∅)])))
    = [store_request client create_sample_data 3;
       status_request client "abc";
       retrieve_request client "abc"]
  /\ calls (snd (main Scripted.transport
                   (start [inl (stored "abc"); inl (failure 503);
                           inl (served other_bytes ∅)])))
     = [store_request client create_sample_data 3;
        status_request client "abc"]
  /\ fst (script Scripted.transport
            (start [inl (stored "abc"); inl (failure 503);
                    inl (served other_bytes ∅)])) = 1.
Proof.
  destruct (status_probe_and_retrieve Scripted.transport
              (start [inl (stored "abc"); inl (failure 404);
                      inl (served other_bytes ∅)])
              (stored "abc") [inl (failure 404); inl (served other_bytes ∅)]
              [("blobId", JStr "abc")] (JStr "abc")
              (failure 404) [inl (served other_bytes ∅)]
              eq_refl eq_refl eq_refl eq_refl eq_refl eq_refl eq_refl)
    as (Hgoes_on & _).
  destruct (status_probe_and_retrieve Scripted.transport
              (start [inl (stored "abc"); inl (failure 503);
                      inl (served other_bytes ∅)])
              (stored "abc") [inl (failure 503); inl (served other_bytes ∅)]
              [("blobId", JStr "abc")] (JStr "abc")
              (failure 503) [inl (served other_bytes ∅)]
              eq_refl eq_refl eq_refl eq_refl eq_refl eq_refl eq_refl)
    as (_ & Hstops).
  split; [| split].
  - apply Hgoes_on. reflexivity.
  - apply Hstops. discriminate.
  - apply Hstops. discriminate.
Defined.

